(** * Emergency response centre: alert delivery, verified against the scripts

    A shallow embedding of the three client scripts of the repository:

    - [ServiceWorker]: the worker script [sw.js] (its [push] listener);
    - [Response]: the response-centre page script [response.js] (facility
      selection, push set-up, the polling loop, the alert modal and the
      listener for worker messages);
    - [MainPage]: [showMapForResult] of [static/js/main.js].

    The properties follow in [WorkerFacts], [PageFacts] and [MapFacts].

    The scripts run on one thread; every function below is the effect of one
    uninterrupted run of the corresponding JavaScript code on an explicit
    state.  What the browser, the network and the operator contribute is an
    argument of the function (the outcome of a fetch, the answer to a
    permission prompt, the timer that fires). *)

From stdpp Require Import gmap strings list fin_maps pretty.
From Stdlib Require Import ZArith String Ascii Lia.

Open Scope string_scope.
Set Warnings "-register-all".
Set Default Proof Using "Type".

(** ** JavaScript values, as far as the scripts look at them *)

Module JS.

(** A value produced by [JSON.parse], plus [undefined] for a missing
    property.  Numbers are the integers ([priority], epoch stamps); an object
    is the list of its own properties, looked up from the left. *)
Inductive value :=
| Undefined
| Null
| Bool (b : bool)
| Num (n : Z)
| Str (s : string)
| Arr (items : list value)
| Obj (fields : list (string * value)).

(** [ToBoolean]. *)
Definition truthy (v : value) : bool :=
  match v with
  | Undefined | Null => false
  | Bool b => b
  | Num n => negb (n =? 0)%Z
  | Str s => negb (String.eqb s "")
  | Arr _ | Obj _ => true
  end.

(** [a || b]. *)
Definition or_else (a b : value) : value := if truthy a then a else b.

Fixpoint own (fields : list (string * value)) (k : string) : option value :=
  match fields with
  | [] => None
  | (k', v) :: rest => if String.eqb k' k then Some v else own rest k
  end.

(** [v.k] for a property name [k] that no prototype provides ([title],
    [body], [priority]): a [TypeError] ([None]) on [null] and [undefined],
    the own property of an object, [undefined] everywhere else. *)
Definition get (v : value) (k : string) : option value :=
  match v with
  | Undefined | Null => None
  | Obj fields => Some (default Undefined (own fields k))
  | _ => Some Undefined
  end.

Fixpoint join (sep : string) (parts : list string) : string :=
  match parts with
  | [] => ""
  | [p] => p
  | p :: rest => p ++ sep ++ join sep rest
  end.

(** [ToString], needed where a value is used as a property key.  A parsed
    object has no callable [toString] of its own: with an own property of
    that name the conversion finds nothing to call and throws ([None]);
    without one it inherits [Object.prototype.toString].  An array joins its
    items with commas, [null] and [undefined] items contributing nothing. *)
Fixpoint to_string (v : value) : option string :=
  match v with
  | Undefined => Some "undefined"
  | Null => Some "null"
  | Bool true => Some "true"
  | Bool false => Some "false"
  | Num n => Some (pretty n)
  | Str s => Some s
  | Arr items =>
      let item v :=
        match v with
        | Undefined | Null => Some ""
        | _ => to_string v
        end in
      let fix items_str (l : list value) : option (list string) :=
        match l with
        | [] => Some []
        | v :: rest =>
            match item v, items_str rest with
            | Some s, Some ss => Some (s :: ss)
            | _, _ => None
            end
        end in
      match items_str items with
      | Some ss => Some (join "," ss)
      | None => None
      end
  | Obj fields =>
      match own fields "toString" with
      | Some _ => None
      | None => Some "[object Object]"
      end
  end.

End JS.

(** ** The worker script: [sw.js] *)

Module ServiceWorker.

(** [event.data] of a push event: the payload text, and what
    [event.data.json()] makes of it ([None] when it throws: the text is not
    JSON). *)
Record push_data := {
  text : string;
  json : option JS.value
}.

Record push_event := {
  data : option push_data;   (* [event.data], null for a push without payload *)
  now : Z                    (* what [Date.now()] answers during the handler *)
}.

Record action := { action_id : string; action_title : string }.

(** The arguments of [self.registration.showNotification(title, options)]. *)
Record notification := {
  n_title : JS.value;
  n_body : JS.value;
  n_icon : string;
  n_badge : string;
  n_vibrate : list Z;
  n_requireInteraction : bool;
  n_tag : string;
  n_renotify : bool;
  n_timestamp : Z;
  n_data : JS.value;
  n_actions : list action
}.

Inductive outcome :=
| Threw                          (* an exception leaves the listener *)
| Notified (n : notification).   (* [showNotification] was called with [n] *)

Definition generic_title : string := "🚨 Emergency Alert".
Definition generic_body : string := "New emergency alert received. Tap to view details.".

(** The own properties of the [priorityColors] literal. *)
Definition priorityColors (k : string) : option string :=
  if String.eqb k "1" then Some "🔴"
  else if String.eqb k "2" then Some "🟠"
  else if String.eqb k "3" then Some "🟡"
  else if String.eqb k "4" then Some "🟢"
  else None.

Section Push.

(** [priorityColors] is an object literal, so a key it does not own is looked
    up in [Object.prototype].  [inherited k] is the text that a template
    literal makes of the member [Object.prototype] has under the name [k]
    (all of them are functions or objects, hence truthy), [None] when it has
    none.  The engine decides both, so they stay a variable. *)
Variable inherited : string -> option string.

(** [priorityColors[key] || '🔴'], as the text the title template shows. *)
Definition dot_of (key : string) : string :=
  match priorityColors key with
  | Some d => d
  | None => default "🔴" (inherited key)
  end.

(** The [data] the listener works with after its [try]/[catch]. *)
Definition payload (ev : push_event) : JS.value :=
  match data ev with
  | None => JS.Obj []
  | Some d =>
      match json d with
      | Some v => v
      | None =>
          JS.Obj [("title", JS.Str generic_title);
                  ("body", JS.or_else (JS.Str (text d)) (JS.Str ""))]
      end
  end.

(** The [push] listener.  Reading a property of [null] and converting an
    unconvertible [priority] to a property key are the two places where it
    can throw. *)
Definition on_push (ev : push_event) : outcome :=
  let data := payload ev in
  match JS.get data "priority" with
  | None => Threw
  | Some priority =>
      match JS.to_string priority with
      | None => Threw
      | Some key =>
          let dot := dot_of key in
          let title :=
            JS.or_else (default JS.Undefined (JS.get data "title"))
                       (JS.Str (dot ++ " Emergency Alert")) in
          let body :=
            JS.or_else (default JS.Undefined (JS.get data "body"))
                       (JS.Str generic_body) in
          Notified {|
            n_title := title;
            n_body := body;
            n_icon := "/response_static/icons/icon-192.png";
            n_badge := "/response_static/icons/badge-72.png";
            n_vibrate := [300; 100; 300; 100; 300; 100; 600]%Z;
            n_requireInteraction := true;
            n_tag := "emergency-alert";
            n_renotify := true;
            n_timestamp := now ev;
            n_data := data;
            n_actions := [ {| action_id := "view"; action_title := "👁 View Details" |};
                           {| action_id := "dismiss"; action_title := "✖ Dismiss" |} ]
          |}
      end
  end.

End Push.

(** *** The [notificationclick] listener *)

(** A window client as [clients.matchAll({type: 'window', ...})] lists it. *)
Record client := {
  client_id : nat;
  url : string;
  focusable : bool      (* ['focus' in client] *)
}.

(** What the listener does, in order. *)
Inductive did :=
| Closed                                           (* [event.notification.close()] *)
| Focused (c : nat)                                (* [client.focus()] *)
| Posted (c : nat) (payload : JS.value)            (* [postMessage({type: 'ALERT_CLICKED', payload})] *)
| Opened (url : string)                            (* [clients.openWindow(url)] *)
| PostedLater (ms : Z) (c : nat) (payload : JS.value).  (* the same message from a timeout *)

(** [s.startsWith(sub)]. *)
Fixpoint starts_with (sub s : string) : bool :=
  match sub, s with
  | EmptyString, _ => true
  | String a sub', String b s' => Ascii.eqb a b && starts_with sub' s'
  | String _ _, EmptyString => false
  end.

(** [s.includes(sub)]. *)
Fixpoint includes (s sub : string) : bool :=
  starts_with sub s ||
  match s with
  | EmptyString => false
  | String _ s' => includes s' sub
  end.

(** The first client the loop of the listener stops at. *)
Definition response_app (clients : list client) : option client :=
  List.find (fun c => includes (url c) ":5020" && focusable c) clients.

(** The listener, for a click on the action [action] (empty for a click on
    the notification itself) of the notification [n]; [clients] is what
    [matchAll] resolves to and [opened] what [openWindow] resolves to, null
    when the browser gives no client back. *)
Definition on_notificationclick
    (action : string) (n : notification) (clients : list client) (opened : option nat)
    : list did :=
  Closed ::
  if String.eqb action "dismiss" then []
  else
    let payload := JS.or_else (n_data n) (JS.Obj []) in
    match response_app clients with
    | Some c => [Focused (client_id c); Posted (client_id c) payload]
    | None =>
        Opened "http://localhost:5020" ::
        match opened with
        | Some c => [PostedLater 2000 c payload]
        | None => []
        end
    end.

(** The payloads the page is sent, at once or later. *)
Definition handed_over (l : list did) : list JS.value :=
  omap (fun d => match d with
                 | Posted _ p | PostedLater _ _ p => Some p
                 | _ => None
                 end) l.

End ServiceWorker.

(** ** The response-centre page: [response.js] *)

(** The state is the four variables of the script, the part of the window
    they act on (timers, pending requests, [localStorage]) and the part of
    the document the script writes and reads back.  What the markup looks
    like is not part of the sources; elements the script uses without a null
    test are taken to exist.  The header has one status dot: the script
    reaches it as the dot inside [#connectionStatus] in [setOnline] and as
    [.status-indicator .dot] in [showAlertModal] and [dismissAlertBtn], and
    its comments call it the header dot both times; on a page where the
    second selector finds nothing only [setOnline] writes the dot.  The siren
    is the fact that it was played, the modal the alert it was filled with.
    The registration form
    ([showRegister], [hideRegister], [registerCenter]) is left out: it ends
    in the assignment to [selectedCenter] that a change of the select makes
    as well, and starts no polling. *)

Module Response.

(** An alert record as [GET /alerts] lists it and as the worker hands it on:
    texts and the priority number, the timestamp being a text as well.  A
    field is [None] when it is absent or null. *)
Record alert := {
  timestamp : option string;
  priority : option Z;
  title : option string;
  location : option string;
  emergency_type : option string;
  emotion : option string;
  transcript : option string
}.

(** Truthiness of a string-or-null variable. *)
Definition truthy (v : option string) : bool :=
  match v with
  | Some s => negb (String.eqb s "")
  | None => false
  end.

(** [a !== b] on timestamps.  [None] is null and undefined alike; the script
    only compares against a truthy [lastAlertTime], where the two agree. *)
Definition differs (a b : option string) : bool := negb (bool_decide (a = b)).

(** Timestamps are compared as JavaScript compares strings, code unit by code
    unit: for stamps of one format, such as ISO 8601, that is the order in
    time. *)
Definition older (t1 t2 : string) : bool := String.ltb t1 t2.

(** What a timer runs when it fires. *)
Inductive timer :=
| PollTimer                    (* [setInterval(loadAlerts, 15000)] *)
| DashboardTimer               (* [setTimeout(() => showDashboard(), 800)] *)
| RestoreTimer (saved : string)  (* the 600 ms timeout of the [load] listener *)
| DotTimer                     (* the 60 s timeout of [showAlertModal] *)
| FailsafeTimer.               (* [setTimeout(resolve, 3000)] of [enableNotifications] *)

#[global] Instance timer_eq_dec : EqDecision timer.
Proof. solve_decision. Defined.

Definition delay (t : timer) : Z :=
  match t with
  | PollTimer => 15000
  | DashboardTimer => 800
  | RestoreTimer _ => 600
  | DotTimer => 60000
  | FailsafeTimer => 3000
  end.

Definition repeats (t : timer) : bool :=
  match t with
  | PollTimer => true
  | _ => false
  end.

Inductive effect :=
| Siren (seconds : Z)          (* [playEmergencySound] *)
| Modal (a : alert)            (* [showAlertModal] presented [a] *)
| FetchAlerts (center : string)  (* [GET /alerts?center=...] went out *)
| Subscribed (center : string).  (* [POST /subscribe] went out *)

Record page := {
  selectedCenter : option string;   (* [selectedCenter]: a facility name, or null *)
  swRegistration : bool;            (* [swRegistration] is set *)
  pollInterval : option nat;        (* [pollInterval]: a timer id, or null *)
  lastAlertTime : option string;    (* [lastAlertTime]: a timestamp, or null/undefined *)
  timers : gmap nat timer;          (* the window's active timers, by id *)
  nextTimer : nat;                  (* the id the next timer gets *)
  inflight : nat;                   (* [loadAlerts] calls waiting for their response *)
  stored : option string;           (* [localStorage]'s 'selectedCenter' *)
  centers : list string;            (* the names offered by [#centerSelect] *)
  selectValue : string;             (* [#centerSelect]'s value *)
  enableBtn : bool;                 (* [#enableNotifBtn] is displayed *)
  notifStatus : string * string;    (* [#notifStatus]: text and class *)
  dashboard : bool;                 (* [#dashboard] is displayed (and [#selectCard] is not) *)
  online : bool;                    (* the label of [#connectionStatus] reads "Online" *)
  statusDot : option string;        (* class of the header dot, when [.status-indicator .dot] finds it *)
  modalShown : bool;                (* [#alertModal] is displayed *)
  modalData : option alert;         (* the alert [#alertModal] was last filled with *)
  alertsList : list alert;          (* the alerts [#alertsList] renders *)
  log : list effect                 (* what the operator got to hear and see, oldest first *)
}.

Definition set_selectedCenter (x : option string) (st : page) : page :=
  {| selectedCenter := x; swRegistration := swRegistration st;
     pollInterval := pollInterval st; lastAlertTime := lastAlertTime st;
     timers := timers st; nextTimer := nextTimer st; inflight := inflight st;
     stored := stored st; centers := centers st; selectValue := selectValue st;
     enableBtn := enableBtn st; notifStatus := notifStatus st;
     dashboard := dashboard st; online := online st; statusDot := statusDot st;
     modalShown := modalShown st; modalData := modalData st;
     alertsList := alertsList st; log := log st |}.

Definition set_swRegistration (x : bool) (st : page) : page :=
  {| selectedCenter := selectedCenter st; swRegistration := x;
     pollInterval := pollInterval st; lastAlertTime := lastAlertTime st;
     timers := timers st; nextTimer := nextTimer st; inflight := inflight st;
     stored := stored st; centers := centers st; selectValue := selectValue st;
     enableBtn := enableBtn st; notifStatus := notifStatus st;
     dashboard := dashboard st; online := online st; statusDot := statusDot st;
     modalShown := modalShown st; modalData := modalData st;
     alertsList := alertsList st; log := log st |}.

Definition set_pollInterval (x : option nat) (st : page) : page :=
  {| selectedCenter := selectedCenter st; swRegistration := swRegistration st;
     pollInterval := x; lastAlertTime := lastAlertTime st; timers := timers st;
     nextTimer := nextTimer st; inflight := inflight st; stored := stored st;
     centers := centers st; selectValue := selectValue st; enableBtn := enableBtn st;
     notifStatus := notifStatus st; dashboard := dashboard st; online := online st;
     statusDot := statusDot st; modalShown := modalShown st; modalData := modalData st;
     alertsList := alertsList st; log := log st |}.

Definition set_lastAlertTime (x : option string) (st : page) : page :=
  {| selectedCenter := selectedCenter st; swRegistration := swRegistration st;
     pollInterval := pollInterval st; lastAlertTime := x; timers := timers st;
     nextTimer := nextTimer st; inflight := inflight st; stored := stored st;
     centers := centers st; selectValue := selectValue st; enableBtn := enableBtn st;
     notifStatus := notifStatus st; dashboard := dashboard st; online := online st;
     statusDot := statusDot st; modalShown := modalShown st; modalData := modalData st;
     alertsList := alertsList st; log := log st |}.

Definition set_timers (x : gmap nat timer) (st : page) : page :=
  {| selectedCenter := selectedCenter st; swRegistration := swRegistration st;
     pollInterval := pollInterval st; lastAlertTime := lastAlertTime st; timers := x;
     nextTimer := nextTimer st; inflight := inflight st; stored := stored st;
     centers := centers st; selectValue := selectValue st; enableBtn := enableBtn st;
     notifStatus := notifStatus st; dashboard := dashboard st; online := online st;
     statusDot := statusDot st; modalShown := modalShown st; modalData := modalData st;
     alertsList := alertsList st; log := log st |}.

Definition set_nextTimer (x : nat) (st : page) : page :=
  {| selectedCenter := selectedCenter st; swRegistration := swRegistration st;
     pollInterval := pollInterval st; lastAlertTime := lastAlertTime st;
     timers := timers st; nextTimer := x; inflight := inflight st; stored := stored st;
     centers := centers st; selectValue := selectValue st; enableBtn := enableBtn st;
     notifStatus := notifStatus st; dashboard := dashboard st; online := online st;
     statusDot := statusDot st; modalShown := modalShown st; modalData := modalData st;
     alertsList := alertsList st; log := log st |}.

Definition set_inflight (x : nat) (st : page) : page :=
  {| selectedCenter := selectedCenter st; swRegistration := swRegistration st;
     pollInterval := pollInterval st; lastAlertTime := lastAlertTime st;
     timers := timers st; nextTimer := nextTimer st; inflight := x;
     stored := stored st; centers := centers st; selectValue := selectValue st;
     enableBtn := enableBtn st; notifStatus := notifStatus st;
     dashboard := dashboard st; online := online st; statusDot := statusDot st;
     modalShown := modalShown st; modalData := modalData st;
     alertsList := alertsList st; log := log st |}.

Definition set_stored (x : option string) (st : page) : page :=
  {| selectedCenter := selectedCenter st; swRegistration := swRegistration st;
     pollInterval := pollInterval st; lastAlertTime := lastAlertTime st;
     timers := timers st; nextTimer := nextTimer st; inflight := inflight st;
     stored := x; centers := centers st; selectValue := selectValue st;
     enableBtn := enableBtn st; notifStatus := notifStatus st;
     dashboard := dashboard st; online := online st; statusDot := statusDot st;
     modalShown := modalShown st; modalData := modalData st;
     alertsList := alertsList st; log := log st |}.

Definition set_centers (x : list string) (st : page) : page :=
  {| selectedCenter := selectedCenter st; swRegistration := swRegistration st;
     pollInterval := pollInterval st; lastAlertTime := lastAlertTime st;
     timers := timers st; nextTimer := nextTimer st; inflight := inflight st;
     stored := stored st; centers := x; selectValue := selectValue st;
     enableBtn := enableBtn st; notifStatus := notifStatus st;
     dashboard := dashboard st; online := online st; statusDot := statusDot st;
     modalShown := modalShown st; modalData := modalData st;
     alertsList := alertsList st; log := log st |}.

Definition set_selectValue (x : string) (st : page) : page :=
  {| selectedCenter := selectedCenter st; swRegistration := swRegistration st;
     pollInterval := pollInterval st; lastAlertTime := lastAlertTime st;
     timers := timers st; nextTimer := nextTimer st; inflight := inflight st;
     stored := stored st; centers := centers st; selectValue := x;
     enableBtn := enableBtn st; notifStatus := notifStatus st;
     dashboard := dashboard st; online := online st; statusDot := statusDot st;
     modalShown := modalShown st; modalData := modalData st;
     alertsList := alertsList st; log := log st |}.

Definition set_enableBtn (x : bool) (st : page) : page :=
  {| selectedCenter := selectedCenter st; swRegistration := swRegistration st;
     pollInterval := pollInterval st; lastAlertTime := lastAlertTime st;
     timers := timers st; nextTimer := nextTimer st; inflight := inflight st;
     stored := stored st; centers := centers st; selectValue := selectValue st;
     enableBtn := x; notifStatus := notifStatus st; dashboard := dashboard st;
     online := online st; statusDot := statusDot st; modalShown := modalShown st;
     modalData := modalData st; alertsList := alertsList st; log := log st |}.

Definition set_notifStatus (x : string * string) (st : page) : page :=
  {| selectedCenter := selectedCenter st; swRegistration := swRegistration st;
     pollInterval := pollInterval st; lastAlertTime := lastAlertTime st;
     timers := timers st; nextTimer := nextTimer st; inflight := inflight st;
     stored := stored st; centers := centers st; selectValue := selectValue st;
     enableBtn := enableBtn st; notifStatus := x; dashboard := dashboard st;
     online := online st; statusDot := statusDot st; modalShown := modalShown st;
     modalData := modalData st; alertsList := alertsList st; log := log st |}.

Definition set_dashboard (x : bool) (st : page) : page :=
  {| selectedCenter := selectedCenter st; swRegistration := swRegistration st;
     pollInterval := pollInterval st; lastAlertTime := lastAlertTime st;
     timers := timers st; nextTimer := nextTimer st; inflight := inflight st;
     stored := stored st; centers := centers st; selectValue := selectValue st;
     enableBtn := enableBtn st; notifStatus := notifStatus st; dashboard := x;
     online := online st; statusDot := statusDot st; modalShown := modalShown st;
     modalData := modalData st; alertsList := alertsList st; log := log st |}.

Definition set_online (x : bool) (st : page) : page :=
  {| selectedCenter := selectedCenter st; swRegistration := swRegistration st;
     pollInterval := pollInterval st; lastAlertTime := lastAlertTime st;
     timers := timers st; nextTimer := nextTimer st; inflight := inflight st;
     stored := stored st; centers := centers st; selectValue := selectValue st;
     enableBtn := enableBtn st; notifStatus := notifStatus st;
     dashboard := dashboard st; online := x; statusDot := statusDot st;
     modalShown := modalShown st; modalData := modalData st;
     alertsList := alertsList st; log := log st |}.

Definition set_statusDot (x : option string) (st : page) : page :=
  {| selectedCenter := selectedCenter st; swRegistration := swRegistration st;
     pollInterval := pollInterval st; lastAlertTime := lastAlertTime st;
     timers := timers st; nextTimer := nextTimer st; inflight := inflight st;
     stored := stored st; centers := centers st; selectValue := selectValue st;
     enableBtn := enableBtn st; notifStatus := notifStatus st;
     dashboard := dashboard st; online := online st; statusDot := x;
     modalShown := modalShown st; modalData := modalData st;
     alertsList := alertsList st; log := log st |}.

Definition set_modalShown (x : bool) (st : page) : page :=
  {| selectedCenter := selectedCenter st; swRegistration := swRegistration st;
     pollInterval := pollInterval st; lastAlertTime := lastAlertTime st;
     timers := timers st; nextTimer := nextTimer st; inflight := inflight st;
     stored := stored st; centers := centers st; selectValue := selectValue st;
     enableBtn := enableBtn st; notifStatus := notifStatus st;
     dashboard := dashboard st; online := online st; statusDot := statusDot st;
     modalShown := x; modalData := modalData st; alertsList := alertsList st;
     log := log st |}.

Definition set_modalData (x : option alert) (st : page) : page :=
  {| selectedCenter := selectedCenter st; swRegistration := swRegistration st;
     pollInterval := pollInterval st; lastAlertTime := lastAlertTime st;
     timers := timers st; nextTimer := nextTimer st; inflight := inflight st;
     stored := stored st; centers := centers st; selectValue := selectValue st;
     enableBtn := enableBtn st; notifStatus := notifStatus st;
     dashboard := dashboard st; online := online st; statusDot := statusDot st;
     modalShown := modalShown st; modalData := x; alertsList := alertsList st;
     log := log st |}.

Definition set_alertsList (x : list alert) (st : page) : page :=
  {| selectedCenter := selectedCenter st; swRegistration := swRegistration st;
     pollInterval := pollInterval st; lastAlertTime := lastAlertTime st;
     timers := timers st; nextTimer := nextTimer st; inflight := inflight st;
     stored := stored st; centers := centers st; selectValue := selectValue st;
     enableBtn := enableBtn st; notifStatus := notifStatus st;
     dashboard := dashboard st; online := online st; statusDot := statusDot st;
     modalShown := modalShown st; modalData := modalData st; alertsList := x;
     log := log st |}.

Definition set_log (x : list effect) (st : page) : page :=
  {| selectedCenter := selectedCenter st; swRegistration := swRegistration st;
     pollInterval := pollInterval st; lastAlertTime := lastAlertTime st;
     timers := timers st; nextTimer := nextTimer st; inflight := inflight st;
     stored := stored st; centers := centers st; selectValue := selectValue st;
     enableBtn := enableBtn st; notifStatus := notifStatus st;
     dashboard := dashboard st; online := online st; statusDot := statusDot st;
     modalShown := modalShown st; modalData := modalData st;
     alertsList := alertsList st; log := x |}.

(** The page as its script starts: [saved] is what an earlier session left in
    [localStorage], [dot] the header dot of the markup, if it has one. *)
Definition init (saved : option string) (dot : option string) : page :=
  {| selectedCenter := None; swRegistration := false; pollInterval := None;
     lastAlertTime := None; timers := ∅; nextTimer := 1; inflight := 0;
     stored := saved; centers := []; selectValue := ""; enableBtn := false;
     notifStatus := ("", "status-text"); dashboard := false; online := false;
     statusDot := dot; modalShown := false; modalData := None; alertsList := [];
     log := [] |}.

(** *** Timers of the window *)

(** [setTimeout] and [setInterval]: the new timer gets the next id (ids start
    at 1, so every id is truthy). *)
Definition add_timer (t : timer) (st : page) : nat * page :=
  let id := nextTimer st in
  (id, set_nextTimer (S id) (set_timers (<[id := t]> (timers st)) st)).

(** [clearInterval(id)]; nothing happens for null or for an id that is not
    active. *)
Definition clear_timer (id : option nat) (st : page) : page :=
  match id with
  | Some i => set_timers (delete i (timers st)) st
  | None => st
  end.

(** *** The functions of the script *)

Definition playEmergencySound (seconds : Z) (st : page) : page :=
  set_log (log st ++ [Siren seconds]) st.

Definition set_dot (cls : string) (st : page) : page :=
  set_statusDot ((fun _ => cls) <$> statusDot st) st.

(** [showAlertModal(data)]: fill and display the modal, turn the header dot
    to "alerting", and leave a 60 s timeout behind that turns the dot back. *)
Definition showAlertModal (data : alert) (st : page) : page :=
  let st := set_modalData (Some data) st in
  let st := set_modalShown true st in
  let st := set_dot "dot alerting" st in
  let st := (add_timer DotTimer st).2 in
  set_log (log st ++ [Modal data]) st.

Definition dismissAlertBtn (st : page) : page :=
  set_dot "dot online" (set_modalShown false st).

(** [dismissAlert(e)]: only a click on the backdrop itself dismisses. *)
Definition dismissAlert (on_backdrop : bool) (st : page) : page :=
  if on_backdrop then dismissAlertBtn st else st.

Definition renderAlerts (alerts : list alert) (st : page) : page :=
  set_alertsList alerts st.

(** The response of [GET /alerts]: the request or the decoding of its body
    failed, or it is the feed, newest alert first. *)
Inductive fetched :=
| Failed
| Feed (alerts : list alert).

(** [loadAlerts()] up to its first [await]: without a selected facility it
    returns at once, otherwise the request goes out. *)
Definition loadAlerts (st : page) : page :=
  if truthy (selectedCenter st) then
    let c := default "" (selectedCenter st) in
    set_inflight (S (inflight st)) (set_log (log st ++ [FetchAlerts c]) st)
  else st.

(** [loadAlerts()] from the response on. *)
Definition loadAlerts_resume (r : fetched) (st : page) : page :=
  match r with
  | Failed => st
  | Feed alerts =>
      let st := renderAlerts alerts st in
      match alerts with
      | [] => st
      | first :: _ =>
          let newest := timestamp first in
          let st :=
            if truthy (lastAlertTime st) && differs newest (lastAlertTime st)
            then showAlertModal first (playEmergencySound 5 st)
            else st in
          set_lastAlertTime newest st
      end
  end.

(** [setOnline(online)] writes the class of the header dot and the label
    next to it. *)
Definition setOnline (on : bool) (st : page) : page :=
  let st := set_dot (if on then "dot online" else "dot offline") st in
  set_online on st.

(** [showDashboard()]. *)
Definition showDashboard (st : page) : page :=
  let st := set_dashboard true st in
  let st := setOnline true st in
  let st := loadAlerts st in
  let st :=
    match pollInterval st with
    | Some id => if negb (id =? 0)%nat then clear_timer (Some id) st else st
    | None => st
    end in
  let '(id, st) := add_timer PollTimer st in
  set_pollInterval (Some id) st.

(** [changeCenterView()]. *)
Definition changeCenterView (st : page) : page :=
  let st := clear_timer (pollInterval st) st in
  let st := set_dashboard false st in
  setOnline false st.

(** The [change] listener of [#centerSelect]. *)
Definition on_select_change (value : string) (st : page) : page :=
  let st := set_selectValue value st in
  let st := set_selectedCenter (if truthy (Some value) then Some value else None) st in
  let st := set_enableBtn (truthy (selectedCenter st)) st in
  set_notifStatus ("", "status-text") st.

(** Assigning [select.value]: the value sticks when an option carries it,
    otherwise the select is left without a selection. *)
Definition assign_select (v : string) (st : page) : page :=
  set_selectValue (if bool_decide (v ∈ centers st) then v else "") st.

(** [loadCenters()] from the response on; [None] when the request failed. *)
Definition loadCenters_resume (r : option (list string)) (st : page) : page :=
  match r with
  | None => st
  | Some names =>
      let st := set_selectValue "" (set_centers names st) in
      if truthy (stored st) then
        let saved := default "" (stored st) in
        let st := assign_select saved st in
        if String.eqb (selectValue st) saved
        then set_enableBtn true (set_selectedCenter (Some saved) st)
        else st
      else st
  end.

(** The worker [register] answers with: it is active already, it reaches
    the state "activated" while the script waits, or it does not and the
    3 s failsafe ends the wait. *)
Inductive worker_state :=
| WorkerActive
| WorkerActivates
| WorkerStalls.

(** What the browser and the operator answer while [enableNotifications()]
    runs.  The function is taken as one run: its awaits are not interleaved
    with other events. *)
Record setup := {
  has_serviceWorker : bool;        (* ['serviceWorker' in navigator] *)
  register_error : option string;  (* the message [register] threw, if it threw *)
  worker : worker_state;           (* [swRegistration.active] and what becomes of the worker *)
  permission : string;             (* the answer of [Notification.requestPermission()] *)
  vapid_key : string;              (* the page's [VAPID_PUBLIC_KEY] *)
  subscribe_ok : bool              (* [subscribe] and the [POST /subscribe] both went through *)
}.

(** The wait for the worker to be active.  With an active worker no timer
    is set.  Otherwise the failsafe timer is set: when the worker activates
    first the timer is still waiting as the script goes on, and fires later
    without effect; when it does not, the timer has fired and is gone, its id
    spent. *)
Definition await_active (w : worker_state) (st : page) : page :=
  match w with
  | WorkerActive => st
  | WorkerActivates => (add_timer FailsafeTimer st).2
  | WorkerStalls => set_nextTimer (S (nextTimer st)) st
  end.

(** [enableNotifications()]. *)
Definition enableNotifications (env : setup) (st : page) : page :=
  if negb (truthy (selectedCenter st)) then st else
  let st := set_notifStatus ("⏳ Setting up notifications…", "status-text") st in
  (* 1. the service worker *)
  if negb (has_serviceWorker env) then
    set_notifStatus ("❌ Service Workers not supported in this browser.", "status-text error") st
  else
  match register_error env with
  | Some msg =>
      set_notifStatus ("❌ SW registration failed: " ++ msg, "status-text error") st
  | None =>
      let st := set_swRegistration true st in
      let st := await_active (worker env) st in
      (* 2. the permission *)
      if negb (String.eqb (permission env) "granted") then
        set_notifStatus
          ("❌ Notification permission denied. Please allow notifications in your browser.",
           "status-text error") st
      else
      (* 3. the push subscription, when a key is configured *)
      let st :=
        if truthy (Some (vapid_key env)) && negb (String.eqb (vapid_key env) "NOT_CONFIGURED")
        then
          if subscribe_ok env
          then set_log (log st ++ [Subscribed (default "" (selectedCenter st))]) st
          else st
        else st in
      (* 4. remember the choice and open the dashboard shortly *)
      let st := set_stored (selectedCenter st) st in
      let st := set_notifStatus ("✅ All set! Notifications enabled.", "status-text success") st in
      (add_timer DashboardTimer st).2
  end.

(** The [load] listener of the window. *)
Definition on_load (permission : string) (st : page) : page :=
  if truthy (stored st) && String.eqb permission "granted" then
    let saved := default "" (stored st) in
    let st := set_selectedCenter (Some saved) st in
    (add_timer (RestoreTimer saved) st).2
  else st.

(** A message from the service worker: [e.data], null or with its [type] and
    [payload]. *)
Record message := { mtype : string; payload : alert }.

(** The [message] listener of [navigator.serviceWorker]. *)
Definition on_message (m : option message) (st : page) : page :=
  match m with
  | Some d =>
      if String.eqb (mtype d) "ALERT_CLICKED" then
        let st := playEmergencySound 5 st in
        let st := showAlertModal (payload d) st in
        loadAlerts st
      else st
  | None => st
  end.

(** The callback a timer runs. *)
Definition callback (t : timer) (st : page) : page :=
  match t with
  | PollTimer => loadAlerts st
  | DashboardTimer => showDashboard st
  | RestoreTimer saved =>
      let st := assign_select saved st in
      if String.eqb (selectValue st) saved then showDashboard st else st
  | DotTimer => set_dot "dot online" st
  | FailsafeTimer => st
  end.

(** The timer [id] fires: a timeout leaves the active timers, an interval
    stays. *)
Definition fire (id : nat) (st : page) : page :=
  match timers st !! id with
  | Some t =>
      let st := if repeats t then st else set_timers (delete id (timers st)) st in
      callback t st
  | None => st
  end.

(** The response of a waiting [loadAlerts] call arrives. *)
Definition arrive (r : fetched) (st : page) : page :=
  match inflight st with
  | S n => loadAlerts_resume r (set_inflight n st)
  | O => st
  end.

(** *** The event loop *)

Inductive event :=
| CentersLoaded (r : option (list string))  (* [loadCenters] got its response *)
| PageLoaded (permission : string)          (* [load] of the window *)
| SelectChanged (value : string)            (* the operator picks in [#centerSelect] *)
| EnableClicked (env : setup)               (* ... clicks "enable notifications" *)
| ChangeClicked                             (* ... leaves the dashboard *)
| DismissClicked                            (* ... clicks the dismiss button *)
| ModalClicked (on_backdrop : bool)         (* ... clicks the modal or its backdrop *)
| TimerFired (id : nat)
| AlertsArrived (r : fetched)
| WorkerMessage (m : option message).

Definition step (st : page) (e : event) : page :=
  match e with
  | CentersLoaded r => loadCenters_resume r st
  | PageLoaded p => on_load p st
  | SelectChanged v => on_select_change v st
  | EnableClicked env => enableNotifications env st
  | ChangeClicked => changeCenterView st
  | DismissClicked => dismissAlertBtn st
  | ModalClicked b => dismissAlert b st
  | TimerFired id => fire id st
  | AlertsArrived r => arrive r st
  | WorkerMessage m => on_message m st
  end.

Definition run (st : page) (es : list event) : page := foldl step st es.

(** *** What the properties speak about *)

Definition is_siren (e : effect) : bool :=
  match e with Siren _ => true | _ => false end.

(** The presentation actions so far: the alerts shown in the modal, in
    order. *)
Definition presented (st : page) : list alert :=
  omap (fun e => match e with Modal a => Some a | _ => None end) (log st).

Definition sirens (st : page) : nat := List.length (List.filter is_siren (log st)).

(** The newest timestamp of a poll response that lists an alert. *)
Definition newest_of (r : fetched) : option (option string) :=
  match r with
  | Feed (first :: _) => Some (timestamp first)
  | _ => None
  end.

(** A series of poll responses, handled one after the other. *)
Definition polls (st : page) (rs : list fetched) : page :=
  foldl (fun st r => loadAlerts_resume r st) st rs.

(** An event that is the response to a poll. *)
Definition is_arrival (e : event) : bool :=
  match e with AlertsArrived _ => true | _ => false end.

(** The operator dismisses the modal, by its button or by a click on the
    backdrop. *)
Definition dismisses (e : event) : bool :=
  match e with
  | DismissClicked | ModalClicked true => true
  | _ => false
  end.

(** The timer [id] fires. *)
Definition fires (id : nat) (e : event) : bool :=
  match e with
  | TimerFired i => (i =? id)%nat
  | _ => false
  end.

(** The polling timers among the active timers. *)
Definition polling (st : page) : gmap nat timer :=
  filter (fun it => it.2 = PollTimer) (timers st).

(** What holds of the timers in every state the page can reach: ids are
    handed out in order, and a polling timer that is active is the one
    [pollInterval] names. *)
Definition timers_ok (st : page) : Prop :=
  0 < nextTimer st /\
  (forall id t, timers st !! id = Some t -> id < nextTimer st) /\
  (forall id, timers st !! id = Some PollTimer -> pollInterval st = Some id) /\
  (forall id, pollInterval st = Some id -> 0 < id).

(** *** The push key: [urlBase64ToUint8Array] *)

(** [window.atob], the forgiving base64 decoding of the HTML standard, on
    the characters of its argument: white space is dropped; one or two "="
    at the end go when the length is a multiple of four; a length of one
    more than a multiple of four, or a character outside the alphabet,
    throws ([None]); the rest is read six bits a character, the bits left
    over at the end being dropped. *)
Definition is_space (a : ascii) : bool :=
  let n := N_of_ascii a in
  (n =? 9)%N || (n =? 10)%N || (n =? 12)%N || (n =? 13)%N || (n =? 32)%N.

(** The value of a character of the alphabet [A-Z a-z 0-9 + /]. *)
Definition sextet (a : ascii) : option N :=
  let n := N_of_ascii a in
  if (65 <=? n)%N && (n <=? 90)%N then Some (n - 65)%N
  else if (97 <=? n)%N && (n <=? 122)%N then Some (n - 71)%N
  else if (48 <=? n)%N && (n <=? 57)%N then Some (n + 4)%N
  else if (n =? 43)%N then Some 62%N
  else if (n =? 47)%N then Some 63%N
  else None.

Definition strip_padding (l : list ascii) : list ascii :=
  match rev l with
  | "="%char :: "="%char :: r => rev r
  | "="%char :: r => rev r
  | _ => l
  end.

Fixpoint sextets (l : list ascii) : option (list N) :=
  match l with
  | [] => Some []
  | a :: l =>
      match sextet a, sextets l with
      | Some n, Some ns => Some (n :: ns)
      | _, _ => None
      end
  end.

(** Four characters give three bytes; two characters at the end give one
    byte, three give two. *)
Fixpoint octets (ns : list N) : list N :=
  match ns with
  | a :: b :: c :: d :: ns =>
      (a * 4 + b / 16)%N :: ((b mod 16) * 16 + c / 4)%N :: ((c mod 4) * 64 + d)%N
      :: octets ns
  | [a; b; c] => [(a * 4 + b / 16)%N; ((b mod 16) * 16 + c / 4)%N]
  | [a; b] => [(a * 4 + b / 16)%N]
  | _ => []
  end.

(** The character codes of [atob(data)]. *)
Definition atob (data : list ascii) : option (list N) :=
  let data := List.filter (fun a => negb (is_space a)) data in
  let data :=
    if (List.length data mod 4 =? 0)%nat then strip_padding data else data in
  if (List.length data mod 4 =? 1)%nat then None
  else option_map octets (sextets data).

(** [.replace(/-/g, '+').replace(/_/g, '/')] on one character. *)
Definition url_to_base64 (a : ascii) : ascii :=
  let a := if Ascii.eqb a "-" then "+"%char else a in
  if Ascii.eqb a "_" then "/"%char else a.

(** [urlBase64ToUint8Array(base64String)]: the bytes of the array, [None]
    when [atob] throws. *)
Definition urlBase64ToUint8Array (base64String : string) : option (list N) :=
  let chars := list_ascii_of_string base64String in
  let padding := repeat "="%char ((4 - List.length chars mod 4) mod 4) in
  let base64 := List.map url_to_base64 (chars ++ padding) in
  atob base64.

(** The unpadded URL-safe base64 text of a list of bytes (RFC 4648, section
    5), the form in which a push key is handed out. *)
Fixpoint to_sextets (bytes : list N) : list N :=
  match bytes with
  | x :: y :: z :: bytes =>
      (x / 4)%N :: ((x mod 4) * 16 + y / 16)%N :: ((y mod 16) * 4 + z / 64)%N
      :: (z mod 64)%N :: to_sextets bytes
  | [x; y] => [(x / 4)%N; ((x mod 4) * 16 + y / 16)%N; ((y mod 16) * 4)%N]
  | [x] => [(x / 4)%N; ((x mod 4) * 16)%N]
  | [] => []
  end.

Definition url_char (n : N) : ascii :=
  if (n <? 26)%N then ascii_of_N (n + 65)
  else if (n <? 52)%N then ascii_of_N (n + 71)
  else if (n <? 62)%N then ascii_of_N (n - 4)
  else if (n =? 62)%N then "-"%char
  else "_"%char.

Definition base64url (bytes : list N) : string :=
  string_of_list_ascii (List.map url_char (to_sextets bytes)).

(** The timer [pollInterval] names, while it is active, is a polling
    timer. *)
Definition pollInterval_ok (st : page) : Prop :=
  forall id, pollInterval st = Some id ->
    id < nextTimer st /\ forall t, timers st !! id = Some t -> t = PollTimer.

(** The dashboard, the label of the header and the polling timer go
    together. *)
Definition dashboard_ok (st : page) : Prop :=
  online st = dashboard st /\
  (dashboard st = true ->
   exists id, pollInterval st = Some id /\ timers st !! id = Some PollTimer) /\
  (dashboard st = false -> forall id, timers st !! id <> Some PollTimer).

End Response.

(** ** The call page: [showMapForResult] of [main.js] *)

Module MainPage.

Record service := {
  name : string;
  type : string;
  type_label : option string;
  lat : string;
  lon : string;
  distance_km : string
}.

Record place := { p_lat : string; p_lon : string; display_name : string }.

(** The body of a [POST /geocode] response. *)
Record geocoded := {
  found : bool;
  location : option place;                   (* absent: reading [.lat] of it throws *)
  emergency_services : option (list service)  (* absent: [|| []] makes it empty *)
}.

(** How the request ends: [fetch] rejects, the status is not ok, the body is
    not JSON, or it is [data]. *)
Inductive answer :=
| NoAnswer
| NotOk
| NotJson
| Data (data : geocoded).

(** What [#centers-i] shows: the spinner [createMapSection] put there, one
    paragraph, or the header with its count and one entry per service. *)
Inductive panel :=
| Spinner
| Paragraph (class text : string)
| Listing (count : nat) (entries : list service).

(** The part of the document [createMapSection(i)] made: [#mapSection-i] with
    [#map-i] and [#centers-i] inside. *)
Record section := {
  hidden : bool;     (* [#mapSection-i] has [display: none] *)
  centers : panel;
  built : bool       (* Leaflet has built a map in [#map-i] *)
}.

(** A Leaflet map: its view, the incident marker's popup and the markers of
    the services; [removed] once [remove()] was called on it. *)
Record leaflet := {
  view : string * string * Z;
  incident : string;
  markers : list service;
  removed : bool
}.

(** Leaflet, the page's global [L], is not among the sources.  What the
    script depends on is which of its calls return and which throw, and that
    is given with the page: whether [remove()] returns on a map, whether
    [L.map(mapId)] builds a map in a container, and whether [setView] and
    [L.marker] take a position.  The calls that get nothing of the answer
    but texts ([L.tileLayer], [L.divIcon], [addTo], [bindPopup]) are taken to
    return. *)
Record library := {
  removes : leaflet -> bool;
  builds : section -> bool;
  takes : string -> string -> bool
}.

Record state := {
  L : library;
  mapInstances : gmap string leaflet;
  sections : gmap nat section;
  resizes : list string      (* the 100 ms timeouts waiting to call [invalidateSize], by map id *)
}.

Definition mapId (index : nat) : string := "map-" ++ pretty index.

Definition hide (index : nat) (st : state) : state :=
  {| L := L st; mapInstances := mapInstances st;
     sections :=
       alter (fun s => {| hidden := true; centers := centers s; built := built s |})
         index (sections st);
     resizes := resizes st |}.

Definition show_panel (index : nat) (p : panel) (st : state) : state :=
  {| L := L st; mapInstances := mapInstances st;
     sections :=
       alter (fun s => {| hidden := hidden s; centers := p; built := built s |})
         index (sections st);
     resizes := resizes st |}.

Definition set_map (id : string) (m : leaflet) (st : state) : state :=
  {| L := L st; mapInstances := <[id := m]> (mapInstances st);
     sections := sections st; resizes := resizes st |}.

Definition remove_map (id : string) (st : state) : state :=
  {| L := L st;
     mapInstances :=
       alter (fun m => {| view := view m; incident := incident m;
                          markers := markers m; removed := true |}) id (mapInstances st);
     sections := sections st; resizes := resizes st |}.

Definition later_resize (id : string) (st : state) : state :=
  {| L := L st; mapInstances := mapInstances st; sections := sections st;
     resizes := resizes st ++ [id] |}.

(** The [catch] block: hide the section, if the document has it. *)
Definition on_error (index : nat) (st : state) : state := hide index st.

(** [if (mapInstances[mapId]) mapInstances[mapId].remove()]: [None] when
    [remove()] throws. *)
Definition remove_stored (index : nat) (st : state) : option state :=
  match mapInstances st !! mapId index with
  | Some m => if removes (L st) m then Some (remove_map (mapId index) st) else None
  | None => Some st
  end.

(** [L.map(mapId)] returned: the container [#map-i] holds a map now. *)
Definition build (index : nat) (st : state) : state :=
  {| L := L st; mapInstances := mapInstances st;
     sections :=
       alter (fun s => {| hidden := hidden s; centers := centers s; built := true |})
         index (sections st);
     resizes := resizes st |}.

(** The loop over the services: each gets its marker on the map, until
    [L.marker] throws on one; the second component is [false] then. *)
Fixpoint add_markers (lib : library) (services : list service) (m : leaflet)
    : leaflet * bool :=
  match services with
  | [] => (m, true)
  | s :: rest =>
      if takes lib (lat s) (lon s)
      then add_markers lib rest
             {| view := view m; incident := incident m;
                markers := markers m ++ [s]; removed := removed m |}
      else (m, false)
  end.

(** [showMapForResult(location, index)] from the response on.  Whatever
    throws inside the [try] ends in the [catch] block.  [L.map(mapId)] is
    called before [data.location.lat] is read, so an answer without the
    location leaves the map it built in the container; it throws when the
    container is not in the document.  The map is in [mapInstances] once
    [setView] has returned, and the incident marker is at the position
    [setView] took. *)
Definition showMapForResult (index : nat) (ans : answer) (st : state) : state :=
  match ans with
  | NoAnswer | NotOk | NotJson => on_error index st
  | Data data =>
      if negb (found data) then hide index st
      else
        match remove_stored index st with
        | None => on_error index st
        | Some st =>
            match sections st !! index with
            | None => on_error index st
            | Some sec =>
                if negb (builds (L st) sec) then on_error index st
                else
                  let st := build index st in
                  match location data with
                  | None => on_error index st
                  | Some loc =>
                      if negb (takes (L st) (p_lat loc) (p_lon loc))
                      then on_error index st
                      else
                        let services := default [] (emergency_services data) in
                        let drawn :=
                          add_markers (L st) services
                            {| view := (p_lat loc, p_lon loc, 14%Z);
                               incident := display_name loc;
                               markers := [];
                               removed := false |} in
                        let st := set_map (mapId index) drawn.1 st in
                        if negb drawn.2 then on_error index st
                        else
                          let st := later_resize (mapId index) st in
                          if (List.length services =? 0)%nat
                          then show_panel index
                                 (Paragraph "no-centers" "No help centers found nearby.") st
                          else show_panel index
                                 (Listing (List.length services) services) st
                  end
            end
        end
  end.

(** An answer the map cannot be drawn from: no answer, an error status, a
    body that is not JSON, a place that was not found, or one without
    coordinates. *)
Definition unusable (ans : answer) : bool :=
  match ans with
  | Data data => negb (found data) || bool_decide (location data = None)
  | _ => true
  end.

(** *** The result cards: [displayResults] *)

(** [result.entities]; the field [location] of the script is [e_location]
    here. *)
Record extracted := {
  priority_level : option string;
  emergency_type : option string;
  e_location : option string
}.

(** One element of the array [/upload] answers with ([/record] answers with
    one such object).  A failed file has [error]; an analysed one has
    [entities]. *)
Record result := {
  error : option string;
  filename : string;
  priority : Z;
  emotion : string;
  transcript : string;
  entities : option extracted;               (* absent: reading a field of it throws *)
  alert_sent : bool;
  notified_centers : option (list string)
}.

Definition truthy (v : option string) : bool :=
  match v with
  | Some s => negb (String.eqb s "")
  | None => false
  end.

(** The children of [#resultsContainer]: an error card, or the container of
    a result card with its call number, the text of the alert banner when it
    has one, and whether a map section follows. *)
Inductive card :=
| ErrorCard (r : result)
| ResultCard (number : nat) (r : result) (banner : option string) (with_map : bool).

Record screen := {
  results_shown : bool;        (* [#resultsSection] is displayed *)
  cards : list card;
  geocoded_texts : list string;  (* the locations sent to [/geocode], oldest first *)
  maps : state
}.

(** The names in the banner of [createAlertBanner(result)]. *)
Definition createAlertBanner (r : result) : string :=
  match notified_centers r with
  | Some (c :: cs) => JS.join ", " (c :: cs)
  | _ => "nearby help centers"
  end.

(** The section [createMapSection(index)] makes, put into the document. *)
Definition createMapSection (index : nat) (st : state) : state :=
  {| L := L st; mapInstances := mapInstances st;
     sections :=
       <[index := {| hidden := false; centers := Spinner; built := false |}]> (sections st);
     resizes := resizes st |}.

Definition add_card (c : card) (sc : screen) : screen :=
  {| results_shown := results_shown sc; cards := cards sc ++ [c];
     geocoded_texts := geocoded_texts sc; maps := maps sc |}.

(** The loop of [displayResults] from index [i] on; each result comes with
    the answer its geocoding request would get.  The second component is
    [false] when [createResultCard] threw, which ends the loop: a result
    without [error] whose [entities] are missing. *)
Fixpoint display_from (i : nat) (rs : list (result * answer)) (sc : screen)
    : screen * bool :=
  match rs with
  | [] => (sc, true)
  | (r, ans) :: rest =>
      if truthy (error r) then display_from (S i) rest (add_card (ErrorCard r) sc)
      else
        match entities r with
        | None => (sc, false)
        | Some e =>
            let banner := if alert_sent r then Some (createAlertBanner r) else None in
            if truthy (e_location e) then
              let sc := add_card (ResultCard (S i) r banner true) sc in
              let sc :=
                {| results_shown := results_shown sc; cards := cards sc;
                   geocoded_texts := geocoded_texts sc ++ [default "" (e_location e)];
                   maps := showMapForResult i ans (createMapSection i (maps sc)) |} in
              display_from (S i) rest sc
            else display_from (S i) rest (add_card (ResultCard (S i) r banner false) sc)
        end
  end.

(** [displayResults(results)]: the container is emptied, which takes the
    map sections of earlier results out of the document; [mapInstances]
    stays.  The run is taken as one, its geocoding requests answered in
    turn. *)
Definition displayResults (rs : list (result * answer)) (sc : screen) : screen * bool :=
  display_from 0 rs
    {| results_shown := true; cards := [];
       geocoded_texts := geocoded_texts sc;
       maps := {| L := L (maps sc); mapInstances := mapInstances (maps sc);
                  sections := ∅; resizes := resizes (maps sc) |} |}.

(** A result [createResultCard] can render. *)
Definition renderable (r : result) : bool :=
  truthy (error r) || bool_decide (is_Some (entities r)).

(** A result that gets a map. *)
Definition located (r : result) : bool :=
  negb (truthy (error r)) &&
  match entities r with
  | Some e => truthy (e_location e)
  | None => false
  end.

(** The card a renderable result gets at index [i]. *)
Definition card_of (i : nat) (r : result) : card :=
  if truthy (error r) then ErrorCard r
  else ResultCard (S i) r
         (if alert_sent r then Some (createAlertBanner r) else None)
         (located r).

(** The location a result is geocoded with, if it is. *)
Definition asked (r : result) : option string :=
  if located r then entities r ≫= e_location else None.

(** A section that is hidden or has lost its spinner. *)
Definition settled (sec : section) : Prop :=
  hidden sec = true \/ centers sec <> Spinner.

(** *** The recording timer of [toggleRecording] *)

(** [s.padStart(n, '0')]. *)
Definition padStart (n : nat) (s : string) : string :=
  String.concat "" (replicate (n - String.length s) "0") ++ s.

(** The text the interval writes once [recordingTime] seconds have run. *)
Definition timer_text (recordingTime : nat) : string :=
  padStart 2 (pretty (recordingTime / 60)) ++ ":" ++ padStart 2 (pretty (recordingTime mod 60)).

(** Reading a text of the form [mm:ss] as a number of seconds. *)
Definition digit (a : ascii) : option nat :=
  let n := nat_of_ascii a in
  if (48 <=? n)%nat && (n <=? 57)%nat then Some (n - 48) else None.

Definition read_timer (s : string) : option nat :=
  match s with
  | String a (String b (String ":" (String c (String d EmptyString)))) =>
      match digit a, digit b, digit c, digit d with
      | Some a, Some b, Some c, Some d => Some ((10 * a + b) * 60 + (10 * c + d))
      | _, _, _, _ => None
      end
  | _ => None
  end.

End MainPage.

(** ** Sample inputs *)

Module Samples.

Import ServiceWorker.

(** A push whose payload is plain text, not JSON. *)
Definition text_push : push_event :=
  {| data := Some {| text := "Fire at 5th street"; json := None |}; now := 1700000000000 |}.

(** A push whose payload is the JSON text [null]. *)
Definition null_push : push_event :=
  {| data := Some {| text := "null"; json := Some JS.Null |}; now := 1700000000000 |}.

(** A push with a body and a priority, but no title. *)
Definition untitled_push : push_event :=
  {| data := Some {| text := "";
                     json := Some (JS.Obj [("body", JS.Str "Caller reports smoke");
                                           ("priority", JS.Num 2)]) |};
     now := 1700000000000 |}.

(** The notification the listener shows for [untitled_push]. *)
Definition smoke_notification : notification :=
  {| n_title := JS.Str "🟠 Emergency Alert";
     n_body := JS.Str "Caller reports smoke";
     n_icon := "/response_static/icons/icon-192.png";
     n_badge := "/response_static/icons/badge-72.png";
     n_vibrate := [300; 100; 300; 100; 300; 100; 600]%Z;
     n_requireInteraction := true;
     n_tag := "emergency-alert";
     n_renotify := true;
     n_timestamp := 1700000000000;
     n_data := JS.Obj [("body", JS.Str "Caller reports smoke"); ("priority", JS.Num 2)];
     n_actions := [ {| action_id := "view"; action_title := "👁 View Details" |};
                    {| action_id := "dismiss"; action_title := "✖ Dismiss" |} ] |}.

(** Two open windows: the call app and the response app. *)
Definition call_window : client :=
  {| client_id := 1; url := "http://localhost:5006/"; focusable := true |}.
Definition response_window : client :=
  {| client_id := 2; url := "http://localhost:5020/"; focusable := true |}.

(** The response page: two facilities, three alerts in the order of their
    timestamps, and the operator's way into the dashboard. *)
Import Response.

Definition hospital : string := "Central Hospital".
Definition station : string := "Harbour Fire Station".

Definition T0 : string := "2024-05-01T08:00:00Z".
Definition T1 : string := "2024-05-01T09:30:00Z".
Definition T2 : string := "2024-05-01T10:15:00Z".

Definition alert_at (t : string) (p : Z) : alert :=
  {| timestamp := Some t; priority := Some p; title := None;
     location := Some "Market Square"; emergency_type := Some "fire";
     emotion := Some "PANIC"; transcript := Some "There is smoke everywhere" |}.

(** The operator grants the permission; the worker is active from an
    earlier visit and the page has no push key. *)
Definition granting : setup :=
  {| has_serviceWorker := true; register_error := None; worker := WorkerActive;
     permission := "granted"; vapid_key := "NOT_CONFIGURED"; subscribe_ok := false |}.

(** The operator denies the permission. *)
Definition denying : setup :=
  {| has_serviceWorker := true; register_error := None; worker := WorkerActive;
     permission := "denied"; vapid_key := "NOT_CONFIGURED"; subscribe_ok := false |}.

(** A first visit: the worker is installed while the script waits, and the
    operator denies the permission. *)
Definition first_denying : setup :=
  {| has_serviceWorker := true; register_error := None; worker := WorkerActivates;
     permission := "denied"; vapid_key := "NOT_CONFIGURED"; subscribe_ok := false |}.

Definition fresh : page := init None (Some "dot offline").

(** The facility list arrives, the operator selects the hospital. *)
Definition select_hospital : list event :=
  [CentersLoaded (Some [hospital; station]); SelectChanged hospital].

(** ... enables notifications, and 800 ms later the dashboard opens (timer 1)
    and starts the polling timer (timer 2). *)
Definition open_dashboard : list event :=
  select_hospital ++ [EnableClicked granting; TimerFired 1].

Definition clicked (a : alert) : event :=
  WorkerMessage (Some {| mtype := "ALERT_CLICKED"; payload := a |}).

(** A place with a hospital and a police station around it. *)
Definition city_hospital : MainPage.service :=
  {| MainPage.name := "City Hospital"; MainPage.type := "hospital";
     MainPage.type_label := Some "Hospital"; MainPage.lat := "17.39";
     MainPage.lon := "78.48"; MainPage.distance_km := "0.8" |}.

Definition police_station : MainPage.service :=
  {| MainPage.name := "Central Police Station"; MainPage.type := "police";
     MainPage.type_label := None; MainPage.lat := "17.40";
     MainPage.lon := "78.47"; MainPage.distance_km := "1.9" |}.

Definition two_services : list MainPage.service := [city_hospital; police_station].

(** A fire station that comes without a position. *)
Definition unplaced_station : MainPage.service :=
  {| MainPage.name := "Harbour Fire Station"; MainPage.type := "fire_station";
     MainPage.type_label := Some "Fire Station"; MainPage.lat := "unknown";
     MainPage.lon := "unknown"; MainPage.distance_km := "2.4" |}.

Definition busy_place : MainPage.geocoded :=
  {| MainPage.found := true;
     MainPage.location :=
       Some {| MainPage.p_lat := "17.385"; MainPage.p_lon := "78.486";
               MainPage.display_name := "Market Square, Hyderabad" |};
     MainPage.emergency_services := Some two_services |}.

(** The same place with the unplaced fire station between the two. *)
Definition patchy_place : MainPage.geocoded :=
  {| MainPage.found := true;
     MainPage.location :=
       Some {| MainPage.p_lat := "17.385"; MainPage.p_lon := "78.486";
               MainPage.display_name := "Market Square, Hyderabad" |};
     MainPage.emergency_services := Some [city_hospital; unplaced_station; police_station] |}.

(** Three results of an upload: a file that failed, a call with a location
    and an alert, and an object without [entities]. *)
Definition failed_file : MainPage.result :=
  {| MainPage.error := Some "Unsupported audio format"; MainPage.filename := "noise.txt";
     MainPage.priority := 4; MainPage.emotion := ""; MainPage.transcript := "";
     MainPage.entities := None; MainPage.alert_sent := false;
     MainPage.notified_centers := None |}.

Definition fire_call : MainPage.result :=
  {| MainPage.error := None; MainPage.filename := "call-17.wav";
     MainPage.priority := 1; MainPage.emotion := "PANIC";
     MainPage.transcript := "There is a fire at Market Square";
     MainPage.entities :=
       Some {| MainPage.priority_level := Some "critical";
               MainPage.emergency_type := Some "fire";
               MainPage.e_location := Some "Market Square" |};
     MainPage.alert_sent := true;
     MainPage.notified_centers := Some ["Central Hospital"; "Harbour Fire Station"] |}.

Definition bare_result : MainPage.result :=
  {| MainPage.error := None; MainPage.filename := "call-18.wav";
     MainPage.priority := 3; MainPage.emotion := "CALM";
     MainPage.transcript := "Hello"; MainPage.entities := None;
     MainPage.alert_sent := false; MainPage.notified_centers := None |}.

(** A Leaflet that takes a position written with digits, a sign and a
    point, builds a map in a container that holds none, and removes a map
    once. *)
Definition numeric (s : string) : bool :=
  negb (String.eqb s "") &&
  forallb (fun a => let n := nat_of_ascii a in
                    ((48 <=? n)%nat && (n <=? 57)%nat) || (n =? 45)%nat || (n =? 46)%nat)
    (list_ascii_of_string s).

Definition strict_leaflet : MainPage.library :=
  {| MainPage.removes := fun m => negb (MainPage.removed m);
     MainPage.builds := fun sec => negb (MainPage.built sec);
     MainPage.takes := fun lat lon => numeric lat && numeric lon |}.

Definition empty_screen : MainPage.screen :=
  {| MainPage.results_shown := false; MainPage.cards := [];
     MainPage.geocoded_texts := [];
     MainPage.maps := {| MainPage.L := strict_leaflet; MainPage.mapInstances := ∅;
                         MainPage.sections := ∅; MainPage.resizes := [] |} |}.

(** A push key: the 65 bytes of a public key on the curve P-256 as 87
    characters. *)
Definition push_key : string :=
  "BEl62iUYgUivxIkv69yViEuiBIa-Ib9-SkvMeAtA3LFgDzkrxZJjSgSnfckjBJuBkr3qBUYIHBQFLXYp5Nksh8U".

(** The call page: the section of the first result, as [createMapSection]
    made it, and a location the geocoder knows with nothing around it. *)
Definition one_section : MainPage.state :=
  {| MainPage.L := strict_leaflet;
     MainPage.mapInstances := ∅;
     MainPage.sections :=
       {[ 0 := {| MainPage.hidden := false; MainPage.centers := MainPage.Spinner;
                  MainPage.built := false |} ]};
     MainPage.resizes := [] |}.

Definition remote_place : MainPage.geocoded :=
  {| MainPage.found := true;
     MainPage.location :=
       Some {| MainPage.p_lat := "61.52"; MainPage.p_lon := "105.31";
               MainPage.display_name := "Evenkiysky District" |};
     MainPage.emergency_services := Some [] |}.

End Samples.

(** * Properties *)

(** ** The push listener of the worker *)

Module WorkerFacts.

Import ServiceWorker.

Example key_of_number : JS.to_string (JS.Num 2) = Some "2".
Proof. vm_compute. reflexivity. Qed.

Example key_of_array :
  JS.to_string (JS.Arr [JS.Num 1; JS.Null; JS.Arr [JS.Str "a"; JS.Num (-2)]])
  = Some "1,,a,-2".
Proof. vm_compute. reflexivity. Qed.

Example key_of_object_with_toString :
  JS.to_string (JS.Obj [("toString", JS.Num 1)]) = None.
Proof. reflexivity. Qed.

Section PushListener.

Variable inherited : string -> option string.

Example dot_of_high_priority : dot_of inherited "2" = "🟠".
Proof. reflexivity. Qed.

Lemma alert_title_not_empty (dot : string) :
  JS.truthy (JS.Str (dot ++ " Emergency Alert")) = true.
Proof. destruct dot; reflexivity. Qed.

Lemma or_else_truthy (a b : JS.value) :
  JS.truthy b = true -> JS.truthy (JS.or_else a b) = true.
Proof. intros Hb. unfold JS.or_else. destruct (JS.truthy a) eqn:Ha; assumption. Qed.

Lemma or_else_falsy (a b : JS.value) :
  JS.truthy a = false -> JS.or_else a b = b.
Proof. intros Ha. unfold JS.or_else. rewrite Ha. reflexivity. Qed.

Lemma or_else_kept (a b : JS.value) :
  JS.truthy a = true -> JS.or_else a b = a.
Proof. intros Ha. unfold JS.or_else. rewrite Ha. reflexivity. Qed.

(** A property can be read off the payload of a push without payload and of
    a push that is not JSON, and the absent priority converts to a key. *)
Lemma payload_without_json (ev : push_event) :
  (forall d, data ev = Some d -> json d = None) ->
  JS.get (payload ev) "priority" = Some JS.Undefined.
Proof.
  intros Hd. unfold payload. destruct (data ev) as [d|]; [|reflexivity].
  rewrite (Hd d eq_refl). reflexivity.
Qed.

(** A payload that is the JSON [null] makes the listener throw. *)
Lemma push_null_payload_throws : on_push inherited Samples.null_push = Threw.
Proof. reflexivity. Qed.

(** C8 (as amended): whenever the payload is not null and its priority
    converts to a property key, which includes every push without payload and
    every payload that is not JSON, the listener does not throw and shows a
    notification that carries the payload.  The payload's own title and body
    are used when they are truthy; a missing title becomes
    "<dot> Emergency Alert" and a missing body the generic body.  For a payload
    that is not JSON the title is the generic "🚨 Emergency Alert", and the
    body is the raw text of the payload, the generic body standing in only for
    an empty text. *)
Theorem push_shows_notification (ev : push_event) (priority : JS.value) :
  JS.get (payload ev) "priority" = Some priority ->
  is_Some (JS.to_string priority) ->
  exists n title body,
    on_push inherited ev = Notified n /\
    n_data n = payload ev /\
    JS.get (payload ev) "title" = Some title /\
    JS.get (payload ev) "body" = Some body /\
    JS.truthy (n_title n) = true /\
    JS.truthy (n_body n) = true /\
    (JS.truthy title = true -> n_title n = title) /\
    (JS.truthy title = false ->
       exists dot, n_title n = JS.Str (dot ++ " Emergency Alert")) /\
    (JS.truthy body = true -> n_body n = body) /\
    (JS.truthy body = false -> n_body n = JS.Str generic_body) /\
    (forall d, data ev = Some d -> json d = None ->
       n_title n = JS.Str generic_title /\
       n_body n = JS.Str (if String.eqb (text d) "" then generic_body else text d)).
Proof.
  intros Hprio [key Hkey].
  assert (Hget : forall k, exists v, JS.get (payload ev) k = Some v).
  { intros k. destruct (payload ev); try discriminate Hprio; eexists; reflexivity. }
  destruct (Hget "title") as [title Htitle], (Hget "body") as [body Hbody].
  unfold on_push. rewrite Hprio, Hkey, Htitle, Hbody. cbn [default].
  eexists _, title, body. cbn [n_data n_title n_body].
  split; [reflexivity|]. split; [reflexivity|]. split; [reflexivity|].
  split; [reflexivity|].
  split; [apply or_else_truthy, alert_title_not_empty|].
  split; [apply or_else_truthy; reflexivity|].
  split; [apply or_else_kept|].
  split; [intros Hf; exists (dot_of inherited key); apply or_else_falsy, Hf|].
  split; [apply or_else_kept|].
  split; [apply or_else_falsy|].
  intros d Hd Hjson. revert Htitle Hbody. unfold payload. rewrite Hd, Hjson.
  cbn. intros [= <-] [= <-]. split; [reflexivity|].
  unfold JS.or_else. cbn.
  destruct (String.eqb (text d) "") eqn:Hempty; cbn; rewrite ?Hempty; reflexivity.
Qed.

End PushListener.

(** The theorem applied to a push that has a body and a priority but no
    title. *)
Lemma push_shows_notification_witness :
  exists n,
    on_push (fun _ => None) Samples.untitled_push = Notified n /\
    n_title n = JS.Str "🟠 Emergency Alert" /\
    n_body n = JS.Str "Caller reports smoke".
Proof.
  destruct (push_shows_notification (fun _ => None) Samples.untitled_push (JS.Num 2))
    as (n & title & body & Hn & _).
  - reflexivity.
  - exists "2". vm_compute. reflexivity.
  - exists n. split; [exact Hn|].
    vm_compute in Hn. injection Hn as <-. split; reflexivity.
Defined.

(** C8 (as stated) fails: for a payload that is not JSON the notification
    shows the raw text of the payload as its body, not the generic body. *)
Lemma push_text_body_not_generic :
  (forall inherited, exists n,
     on_push inherited Samples.text_push = Notified n /\
     n_title n = JS.Str generic_title /\
     n_body n = JS.Str "Fire at 5th street") /\
  JS.Str "Fire at 5th street" <> JS.Str generic_body.
Proof.
  split.
  - intros inherited. eexists. repeat split.
  - discriminate.
Qed.

End WorkerFacts.

(** ** The response page *)

Module PageFacts.

Import Response.
Local Open Scope list_scope.

(** *** One poll response *)

Lemma presented_app (st : page) (l : list effect) :
  presented (set_log (log st ++ l) st)
  = presented st ++ omap (fun e => match e with Modal a => Some a | _ => None end) l.
Proof. unfold presented. cbn. apply omap_app. Qed.

Lemma sirens_app (st : page) (l : list effect) :
  sirens (set_log (log st ++ l) st)
  = sirens st + List.length (List.filter is_siren l).
Proof. unfold sirens. cbn. rewrite List.filter_app, length_app. reflexivity. Qed.

Lemma presented_playEmergencySound (n : Z) (st : page) :
  presented (playEmergencySound n st) = presented st.
Proof. unfold playEmergencySound. rewrite presented_app. cbn. apply app_nil_r. Qed.

Lemma sirens_playEmergencySound (n : Z) (st : page) :
  sirens (playEmergencySound n st) = S (sirens st).
Proof. unfold playEmergencySound. rewrite sirens_app. cbn. lia. Qed.

Lemma presented_showAlertModal (a : alert) (st : page) :
  presented (showAlertModal a st) = presented st ++ [a].
Proof. unfold showAlertModal, presented. cbn. rewrite omap_app. reflexivity. Qed.

Lemma sirens_showAlertModal (a : alert) (st : page) :
  sirens (showAlertModal a st) = sirens st.
Proof.
  unfold showAlertModal, sirens. cbn. rewrite List.filter_app, length_app. cbn. lia.
Qed.

(** When the script's test for a new alert succeeds. *)
Lemma new_alert_test (newest last : option string) :
  truthy last && differs newest last = true
  <-> exists t, last = Some t /\ t <> "" /\ newest <> Some t.
Proof.
  unfold differs. split.
  - intros [Ht Hd]%andb_true_iff. destruct last as [t|]; [|discriminate].
    exists t. cbn in Ht. apply negb_true_iff, String.eqb_neq in Ht.
    apply negb_true_iff, bool_decide_eq_false in Hd. auto.
  - intros (t & -> & Ht & Hneq). apply andb_true_iff. split.
    + cbn. apply negb_true_iff, String.eqb_neq, Ht.
    + apply negb_true_iff, bool_decide_eq_false, Hneq.
Qed.

Lemma lastAlertTime_resume (st : page) (first : alert) (rest : list alert) :
  lastAlertTime (loadAlerts_resume (Feed (first :: rest)) st) = timestamp first.
Proof. reflexivity. Qed.

Lemma presented_resume (st : page) (first : alert) (rest : list alert) :
  presented (loadAlerts_resume (Feed (first :: rest)) st)
  = presented st
    ++ (if truthy (lastAlertTime st) && differs (timestamp first) (lastAlertTime st)
        then [first] else []).
Proof.
  unfold loadAlerts_resume, renderAlerts. cbn [lastAlertTime set_alertsList].
  destruct (truthy (lastAlertTime st) && differs (timestamp first) (lastAlertTime st));
    unfold presented; cbn; rewrite ?omap_app; cbn; rewrite ?app_nil_r; reflexivity.
Qed.

Lemma sirens_resume (st : page) (first : alert) (rest : list alert) :
  sirens (loadAlerts_resume (Feed (first :: rest)) st)
  = sirens st
    + (if truthy (lastAlertTime st) && differs (timestamp first) (lastAlertTime st)
       then 1 else 0).
Proof.
  unfold loadAlerts_resume, renderAlerts. cbn [lastAlertTime set_alertsList].
  destruct (truthy (lastAlertTime st) && differs (timestamp first) (lastAlertTime st));
    unfold sirens; cbn; rewrite ?List.filter_app, ?length_app; cbn; lia.
Qed.

Lemma modal_resume (st : page) (first : alert) (rest : list alert) :
  let st' := loadAlerts_resume (Feed (first :: rest)) st in
  if truthy (lastAlertTime st) && differs (timestamp first) (lastAlertTime st)
  then modalShown st' = true /\ modalData st' = Some first
  else modalShown st' = modalShown st /\ modalData st' = modalData st.
Proof.
  cbn zeta. unfold loadAlerts_resume, renderAlerts. cbn [lastAlertTime set_alertsList].
  destruct (truthy (lastAlertTime st) && differs (timestamp first) (lastAlertTime st));
    split; reflexivity.
Qed.

(** C3 (as amended): a poll response with at least one alert presents the
    newest of its alerts, with one siren and the modal, exactly when
    [lastAlertTime] is set and the newest timestamp differs from it, be it
    newer or older; either way [lastAlertTime] becomes that newest timestamp.
    A failed or empty response presents nothing and leaves [lastAlertTime]
    as it was. *)
Theorem poll_presents_on_change (st : page) (first : alert) (rest : list alert) :
  let changed := truthy (lastAlertTime st) && differs (timestamp first) (lastAlertTime st) in
  let st' := loadAlerts_resume (Feed (first :: rest)) st in
  lastAlertTime st' = timestamp first /\
  presented st' = presented st ++ (if changed then [first] else []) /\
  sirens st' = sirens st + (if changed then 1 else 0) /\
  (if changed then modalShown st' = true /\ modalData st' = Some first
   else modalShown st' = modalShown st /\ modalData st' = modalData st) /\
  presented (loadAlerts_resume (Feed []) st) = presented st /\
  lastAlertTime (loadAlerts_resume (Feed []) st) = lastAlertTime st /\
  loadAlerts_resume Failed st = st.
Proof.
  cbn zeta.
  split; [apply lastAlertTime_resume|].
  split; [apply presented_resume|].
  split; [apply sirens_resume|].
  split; [apply (modal_resume st first rest)|].
  repeat split.
Qed.

(** C3 (as stated) fails: with [T2] stored, a response whose newest alert
    is the older [T1] is presented as a new alert. *)
Lemma older_alert_presented :
  let seen :=
    run Samples.fresh
      (Samples.open_dashboard
       ++ [AlertsArrived (Feed [Samples.alert_at Samples.T2 2; Samples.alert_at Samples.T1 1])]) in
  let st := run seen [TimerFired 2; AlertsArrived (Feed [Samples.alert_at Samples.T1 1])] in
  lastAlertTime seen = Some Samples.T2 /\
  presented seen = [] /\
  older Samples.T1 Samples.T2 = true /\
  presented st = [Samples.alert_at Samples.T1 1] /\
  sirens st = 1.
Proof. vm_compute. repeat split. Qed.

(** *** Events that are no poll response *)

Ltac page_functions :=
  unfold step, arrive, fire, callback, on_message, on_load, enableNotifications,
    await_active, loadCenters_resume, assign_select, on_select_change, changeCenterView,
    showDashboard, setOnline, loadAlerts, dismissAlert, dismissAlertBtn,
    showAlertModal, set_dot, playEmergencySound, clear_timer, add_timer.

Ltac by_cases :=
  repeat (cbn;
          match goal with
          | |- context [match ?x with _ => _ end] => destruct x eqn:?
          end);
  cbn.

(** Only a poll response assigns [lastAlertTime]. *)
Lemma lastAlertTime_step (st : page) (e : event) :
  is_arrival e = false -> lastAlertTime (step st e) = lastAlertTime st.
Proof.
  destruct e; try discriminate; intros _; page_functions; by_cases; reflexivity.
Qed.

Lemma lastAlertTime_run (st : page) (es : list event) :
  forallb (fun e => negb (is_arrival e)) es = true ->
  lastAlertTime (run st es) = lastAlertTime st.
Proof.
  revert st. induction es as [|e es IH]; intros st Hes; [reflexivity|].
  cbn in Hes. apply andb_true_iff in Hes as [He Hes]. apply negb_true_iff in He.
  change (run st (e :: es)) with (run (step st e) es).
  rewrite (IH _ Hes). apply lastAlertTime_step, He.
Qed.

(** *** Push and poll of one alert *)

Lemma presented_loadAlerts (st : page) : presented (loadAlerts st) = presented st.
Proof.
  unfold loadAlerts. destruct (truthy (selectedCenter st)); [|reflexivity].
  unfold presented. cbn. rewrite omap_app. cbn. apply app_nil_r.
Qed.

(** A click on the notification always presents the alert it carries. *)
Lemma message_presents (a : alert) (st : page) :
  let st' := on_message (Some {| mtype := "ALERT_CLICKED"; payload := a |}) st in
  presented st' = presented st ++ [a] /\ sirens st' = S (sirens st) /\
  modalShown st' = true /\ modalData st' = Some a.
Proof.
  cbn zeta. unfold on_message. cbn [mtype payload String.eqb Ascii.eqb Bool.eqb].
  rewrite presented_loadAlerts, presented_showAlertModal, presented_playEmergencySound.
  split; [reflexivity|]. split.
  - unfold loadAlerts, sirens. destruct (truthy _); cbn;
      rewrite ?List.filter_app, ?length_app; cbn; lia.
  - unfold loadAlerts. destruct (truthy _); split; reflexivity.
Qed.

(** C1 (as amended): the polling channel absorbs an identity it has delivered
    before.  Once a poll response with newest timestamp [t] has been handled,
    and whatever happens on the page before the next poll response (clicks,
    timers, worker messages), a poll response whose newest alert carries [t]
    again presents nothing.  The push channel has no such test: every
    notification click handed over by the worker sounds the siren and shows
    the modal for the alert it carries, presented before or not. *)
Theorem same_identity_poll_absorbed
    (st : page) (first again : alert) (rest rest' : list alert) (es : list event) :
  timestamp again = timestamp first ->
  forallb (fun e => negb (is_arrival e)) es = true ->
  let st1 := run (loadAlerts_resume (Feed (first :: rest)) st) es in
  let st2 := loadAlerts_resume (Feed (again :: rest')) st1 in
  presented st2 = presented st1 /\ sirens st2 = sirens st1 /\
  lastAlertTime st2 = timestamp first /\
  forall a, presented (step st2 (Samples.clicked a)) = presented st2 ++ [a].
Proof.
  intros Hsame Hes. cbn zeta.
  set (st1 := run (loadAlerts_resume (Feed (first :: rest)) st) es).
  assert (Hlast : lastAlertTime st1 = timestamp first).
  { unfold st1. rewrite (lastAlertTime_run _ _ Hes). apply lastAlertTime_resume. }
  pose proof (lastAlertTime_resume st1 again rest') as Ht.
  pose proof (presented_resume st1 again rest') as Hp.
  pose proof (sirens_resume st1 again rest') as Hs.
  assert (Hno : truthy (lastAlertTime st1) && differs (timestamp again) (lastAlertTime st1) = false).
  { rewrite Hlast, Hsame. unfold differs. rewrite bool_decide_eq_true_2 by reflexivity.
    apply andb_false_r. }
  rewrite Hno in Hp, Hs. rewrite app_nil_r in Hp.
  split; [exact Hp|]. split; [lia|]. split; [congruence|].
  intros a. apply (message_presents a).
Qed.

(** The theorem applied after the first delivery of [T1] by a poll: the
    operator dismisses the modal, the polling timer fires, and the second
    response with [T1] on top is absorbed. *)
Lemma same_identity_poll_absorbed_witness :
  let seeded :=
    run Samples.fresh (Samples.open_dashboard
                       ++ [AlertsArrived (Feed [Samples.alert_at Samples.T0 3])]) in
  let feed := [Samples.alert_at Samples.T1 1; Samples.alert_at Samples.T0 3] in
  let st1 := run (loadAlerts_resume (Feed feed) seeded) [DismissClicked; TimerFired 2] in
  presented st1 = [Samples.alert_at Samples.T1 1] /\
  presented (loadAlerts_resume (Feed feed) st1) = presented st1.
Proof.
  split; [vm_compute; reflexivity|].
  exact (proj1 (same_identity_poll_absorbed
                  (run Samples.fresh
                     (Samples.open_dashboard
                      ++ [AlertsArrived (Feed [Samples.alert_at Samples.T0 3])]))
                  (Samples.alert_at Samples.T1 1) (Samples.alert_at Samples.T1 1)
                  [Samples.alert_at Samples.T0 3] [Samples.alert_at Samples.T0 3]
                  [DismissClicked; TimerFired 2] eq_refl eq_refl)).
Defined.

(** C1 (as stated) fails, in either order.  Poll first: the poll presents
    [T1], the click on the notification for [T1] presents it again.  Push
    first: the click presents [T1], and the poll it starts itself finds [T1]
    newer than the stored [T0] and presents it a second time. *)
Lemma same_alert_presented_twice :
  let a0 := Samples.alert_at Samples.T0 3 in
  let a1 := Samples.alert_at Samples.T1 1 in
  let seeded := Samples.open_dashboard ++ [AlertsArrived (Feed [a0])] in
  let poll_then_push :=
    seeded ++ [TimerFired 2; AlertsArrived (Feed [a1; a0]); Samples.clicked a1] in
  let push_then_poll :=
    seeded ++ [Samples.clicked a1; AlertsArrived (Feed [a1; a0])] in
  presented (run Samples.fresh seeded) = [] /\
  presented (run Samples.fresh poll_then_push) = [a1; a1] /\
  sirens (run Samples.fresh poll_then_push) = 2 /\
  presented (run Samples.fresh push_then_poll) = [a1; a1] /\
  sirens (run Samples.fresh push_then_poll) = 2.
Proof. vm_compute. repeat split. Qed.

(** *** Two alerts, one after the other *)

Lemma older_irrefl (t : string) : older t t = false.
Proof.
  unfold older, String.ltb. pose proof (String.compare_antisym t t) as H.
  destruct (String.compare t t); try reflexivity. discriminate H.
Qed.

(** C7 (as amended): when two alerts with timestamps [t1] older than [t2]
    arrive through the polling channel in that order, [t1] being a set
    (non-empty) timestamp, the second response presents the alert of [t2]:
    it is the last alert presented and the one the modal shows, whether or
    not the first was dismissed and whatever clicks, timers and worker
    messages came in between.  (A notification click, for its part, presents
    the alert it carries without looking at timestamps.) *)
Theorem newer_poll_presented_last
    (st : page) (a1 a2 : alert) (rest1 rest2 : list alert) (t1 t2 : string)
    (es : list event) :
  timestamp a1 = Some t1 -> timestamp a2 = Some t2 ->
  t1 <> "" -> older t1 t2 = true ->
  forallb (fun e => negb (is_arrival e)) es = true ->
  let st1 := run (loadAlerts_resume (Feed (a1 :: rest1)) st) es in
  let st2 := loadAlerts_resume (Feed (a2 :: rest2)) st1 in
  presented st2 = presented st1 ++ [a2] /\
  modalShown st2 = true /\ modalData st2 = Some a2 /\
  lastAlertTime st2 = Some t2.
Proof.
  intros H1 H2 Hset Hold Hes. cbn zeta.
  set (st1 := run (loadAlerts_resume (Feed (a1 :: rest1)) st) es).
  assert (Hlast : lastAlertTime st1 = Some t1).
  { unfold st1. rewrite (lastAlertTime_run _ _ Hes), lastAlertTime_resume. exact H1. }
  assert (Hnew : truthy (lastAlertTime st1) && differs (timestamp a2) (lastAlertTime st1) = true).
  { apply new_alert_test. exists t1. split; [exact Hlast|]. split; [exact Hset|].
    rewrite H2. intros [= ->]. rewrite older_irrefl in Hold. discriminate. }
  pose proof (presented_resume st1 a2 rest2) as Hp.
  pose proof (modal_resume st1 a2 rest2) as Hm. cbn zeta in Hm.
  rewrite Hnew in Hp, Hm. destruct Hm as [Hshown Hdata].
  split; [exact Hp|]. split; [exact Hshown|]. split; [exact Hdata|].
  rewrite lastAlertTime_resume. exact H2.
Qed.

(** The theorem applied to [T1] and [T2], with a click on the notification of
    [T1] between the two poll responses. *)
Lemma newer_poll_presented_last_witness :
  let a0 := Samples.alert_at Samples.T0 3 in
  let a1 := Samples.alert_at Samples.T1 1 in
  let a2 := Samples.alert_at Samples.T2 2 in
  let seeded := run Samples.fresh (Samples.open_dashboard ++ [AlertsArrived (Feed [a0])]) in
  let st1 := run (loadAlerts_resume (Feed [a1; a0]) seeded) [Samples.clicked a1] in
  let st2 := loadAlerts_resume (Feed [a2; a1; a0]) st1 in
  presented st2 = presented st1 ++ [a2] /\
  modalShown st2 = true /\ modalData st2 = Some a2 /\
  lastAlertTime st2 = Some Samples.T2.
Proof.
  cbn zeta.
  apply (newer_poll_presented_last
           (run Samples.fresh (Samples.open_dashboard
                               ++ [AlertsArrived (Feed [Samples.alert_at Samples.T0 3])]))
           (Samples.alert_at Samples.T1 1) (Samples.alert_at Samples.T2 2)
           [Samples.alert_at Samples.T0 3]
           [Samples.alert_at Samples.T1 1; Samples.alert_at Samples.T0 3]
           Samples.T1 Samples.T2 [Samples.clicked (Samples.alert_at Samples.T1 1)]).
  - reflexivity.
  - reflexivity.
  - discriminate.
  - reflexivity.
  - reflexivity.
Defined.

(** C7 (as stated) fails: both alerts have arrived by polls and [T2] is
    presented; then the click on the notification of the older [T1] comes in,
    nothing having been dismissed, and the alert presented in the end is
    [T1]. *)
Lemma late_push_masks_newer :
  let a0 := Samples.alert_at Samples.T0 3 in
  let a1 := Samples.alert_at Samples.T1 1 in
  let a2 := Samples.alert_at Samples.T2 2 in
  let polled :=
    Samples.open_dashboard
    ++ [AlertsArrived (Feed [a0]);
        TimerFired 2; AlertsArrived (Feed [a1; a0]);
        TimerFired 2; AlertsArrived (Feed [a2; a1; a0])] in
  let st := run Samples.fresh (polled ++ [Samples.clicked a1; AlertsArrived (Feed [a2; a1; a0])]) in
  older Samples.T1 Samples.T2 = true /\
  presented (run Samples.fresh polled) = [a1; a2] /\
  presented st = [a1; a2; a1] /\
  modalShown st = true /\
  modalData st = Some a1.
Proof. vm_compute. repeat split. Qed.

(** *** The stored timestamp *)

Lemma lastAlertTime_resume_other (st : page) (r : fetched) :
  newest_of r = None -> lastAlertTime (loadAlerts_resume r st) = lastAlertTime st.
Proof. destruct r as [|[|first rest]]; try reflexivity. discriminate. Qed.

(** C5 (as amended): [lastAlertTime] follows the feed.  Every poll response
    that lists an alert makes it the newest timestamp of that response, a
    failed or empty response leaves it alone; after a series of responses it
    is the newest timestamp of the last response that listed an alert.  The
    script compares nothing here, so the stored timestamp moves forward
    exactly as far as the newest timestamp of the feed does. *)
Theorem lastAlertTime_follows_feed (st : page) (rs : list fetched) :
  lastAlertTime (polls st rs)
  = default (lastAlertTime st) (last (omap newest_of rs)).
Proof.
  revert st. induction rs as [|r rs IH]; intros st; [reflexivity|].
  change (polls st (r :: rs)) with (polls (loadAlerts_resume r st) rs).
  rewrite IH.
  change (omap newest_of (r :: rs))
    with (match newest_of r with
          | Some t => t :: omap newest_of rs
          | None => omap newest_of rs
          end).
  destruct (newest_of r) as [t|] eqn:Hr.
  - rewrite last_cons.
    destruct r as [|[|first rest]]; try discriminate Hr.
    injection Hr as <-. rewrite lastAlertTime_resume.
    destruct (last (omap newest_of rs)); reflexivity.
  - rewrite (lastAlertTime_resume_other _ _ Hr). reflexivity.
Qed.

(** C5 (as stated) fails: within one selection the stored timestamp goes
    back from [T2] to [T0] when the feed does. *)
Lemma lastAlertTime_goes_back :
  let seen :=
    run Samples.fresh
      (Samples.open_dashboard ++ [AlertsArrived (Feed [Samples.alert_at Samples.T2 2])]) in
  let st := run seen [TimerFired 2; AlertsArrived (Feed [Samples.alert_at Samples.T0 3])] in
  selectedCenter st = selectedCenter seen /\
  lastAlertTime seen = Some Samples.T2 /\
  lastAlertTime st = Some Samples.T0 /\
  older Samples.T0 Samples.T2 = true.
Proof. vm_compute. repeat split. Qed.

(** *** The first response after a selection *)

(** As long as no timestamp is stored, a poll response presents nothing:
    the first response in the life of the page only seeds [lastAlertTime]. *)
Lemma first_response_silent (st : page) (r : fetched) :
  lastAlertTime st = None ->
  presented (loadAlerts_resume r st) = presented st /\
  sirens (loadAlerts_resume r st) = sirens st.
Proof.
  intros Hnone. destruct r as [|[|first rest]]; try (split; reflexivity).
  rewrite presented_resume, sirens_resume, Hnone. cbn. rewrite app_nil_r. split; [reflexivity|lia].
Qed.

(** C2, the failing case: the operator leaves the hospital's dashboard and
    selects the fire station.  [lastAlertTime] still holds the hospital's
    [T1], so the first response for the station, whose newest alert is the
    old [T0], sounds the siren and opens the modal. *)
Lemma reselection_first_response_presents :
  let st :=
    run Samples.fresh
      (Samples.open_dashboard
       ++ [AlertsArrived (Feed [Samples.alert_at Samples.T1 1]);
           ChangeClicked; SelectChanged Samples.station;
           EnableClicked Samples.granting; TimerFired 3]) in
  let st' := step st (AlertsArrived (Feed [Samples.alert_at Samples.T0 2])) in
  selectedCenter st = Some Samples.station /\
  last (log st) = Some (FetchAlerts Samples.station) /\
  inflight st = 1 /\
  presented st = [] /\
  lastAlertTime st = Some Samples.T1 /\
  presented st' = [Samples.alert_at Samples.T0 2] /\
  sirens st' = 1 /\
  modalShown st' = true.
Proof. vm_compute. repeat split. Qed.

(** *** The permission prompt *)

(** What the wait for the worker leaves behind is at most its failsafe
    timer. *)
Lemma await_active_frame (w : worker_state) (st : page) :
  let st0 := await_active w st in
  selectedCenter st0 = selectedCenter st /\ inflight st0 = inflight st /\
  log st0 = log st /\ stored st0 = stored st /\ dashboard st0 = dashboard st /\
  pollInterval st0 = pollInterval st /\ nextTimer st <= nextTimer st0 /\
  forall i t, timers st0 !! i = Some t -> t <> FailsafeTimer -> timers st !! i = Some t.
Proof.
  cbn zeta. destruct w; cbn; repeat split; try lia; try (intros i t H _; exact H).
  intros i t H Ht. apply lookup_insert_Some in H as [[_ <-]|[_ H]]; [congruence|exact H].
Qed.

(** C4 (as amended): the permission decides whether the dashboard opens at
    all.  With a facility selected and the service worker registered,
    [enableNotifications] stops at a refused permission: it reports the
    refusal and returns, with no subscription, no timer but the failsafe of
    its wait for the worker, no request for the alert feed and the dashboard
    closed, so polling does not start.  With the permission granted it
    schedules [showDashboard], whether or not the push subscription is
    configured or succeeds, and when that timeout fires the first request
    for the facility's feed goes out and the polling timer runs.  [st0] is
    the page as the wait for the worker leaves it: the page itself when the
    worker is active, and otherwise with the failsafe timer as its only new
    timer. *)
Theorem permission_gates_polling (st : page) (env : setup) :
  truthy (selectedCenter st) = true ->
  has_serviceWorker env = true ->
  register_error env = None ->
  let st' := enableNotifications env st in
  let st0 := await_active (worker env) st in
  (if String.eqb (permission env) "granted" then
     let id := nextTimer st0 in
     let st'' := fire id st' in
     timers st' = <[id := DashboardTimer]> (timers st0) /\
     stored st' = selectedCenter st /\
     dashboard st'' = true /\
     inflight st'' = S (inflight st) /\
     last (log st'') = Some (FetchAlerts (default "" (selectedCenter st))) /\
     pollInterval st'' = Some (S id) /\
     timers st'' !! S id = Some PollTimer
   else
     notifStatus st'
     = ("❌ Notification permission denied. Please allow notifications in your browser.",
        "status-text error") /\
     timers st' = timers st0 /\
     pollInterval st' = pollInterval st /\
     inflight st' = inflight st /\
     log st' = log st /\
     stored st' = stored st /\
     dashboard st' = dashboard st) /\
  (forall i t, timers st0 !! i = Some t -> t <> FailsafeTimer -> timers st !! i = Some t) /\
  (worker env = WorkerActive -> st0 = st).
Proof.
  intros Hsel Hsw Hreg. cbn zeta.
  destruct (await_active_frame (worker env) st) as (Hc0 & Hi0 & Hl0 & Hs0 & Hd0 & Hp0 & _ & Ht0).
  cbn zeta in *.
  split; [|split; [exact Ht0|intros ->; reflexivity]].
  unfold enableNotifications. rewrite Hsel, Hsw, Hreg. cbn [negb].
  assert (Hframe : forall x : string * string,
            let s0 := await_active (worker env)
                        (set_swRegistration true (set_notifStatus x st)) in
            timers s0 = timers (await_active (worker env) st) /\
            nextTimer s0 = nextTimer (await_active (worker env) st) /\
            selectedCenter s0 = selectedCenter st /\ inflight s0 = inflight st /\
            log s0 = log st /\ stored s0 = stored st /\ dashboard s0 = dashboard st /\
            pollInterval s0 = pollInterval st /\ notifStatus s0 = x).
  { intros x. cbn zeta. destruct (worker env); repeat split. }
  match goal with
  | |- context [await_active (worker env) (set_swRegistration true (set_notifStatus ?x st))] =>
      destruct (Hframe x) as (Ht & Hn & Hc & Hi & Hl & Hs & Hd & Hp & Hns);
      generalize dependent
        (await_active (worker env) (set_swRegistration true (set_notifStatus x st)))
  end.
  intros st1 Ht Hn Hc Hi Hl Hs Hd Hp Hns.
  destruct (String.eqb (permission env) "granted"); cbn [negb].
  2:{ cbn. repeat split; congruence. }
  unfold fire, add_timer. cbn [timers nextTimer set_timers set_nextTimer snd].
  assert (Hstep : forall st2 : page,
            selectedCenter st2 = selectedCenter st ->
            inflight st2 = inflight st ->
            nextTimer st2 = S (nextTimer st1) ->
            let st3 := showDashboard st2 in
            dashboard st3 = true /\ inflight st3 = S (inflight st) /\
            last (log st3) = Some (FetchAlerts (default "" (selectedCenter st))) /\
            pollInterval st3 = Some (S (nextTimer st1)) /\
            timers st3 !! S (nextTimer st1) = Some PollTimer).
  { intros st2 Hc2 Hi2 Hn2. cbn zeta. unfold showDashboard, setOnline, loadAlerts, set_dot.
    cbn [selectedCenter set_dashboard set_online set_statusDot]. rewrite Hc2, Hsel.
    unfold clear_timer, add_timer. cbn.
    destruct (pollInterval st2) as [p|]; [destruct (negb (p =? 0)%nat)|];
      cbn; rewrite Hi2, Hn2, last_snoc, lookup_insert_eq; repeat split. }
  rewrite <- Hn.
  destruct (truthy (Some (vapid_key env)) && negb (String.eqb (vapid_key env) "NOT_CONFIGURED"));
    [destruct (subscribe_ok env)|];
    cbn -[showDashboard]; rewrite lookup_insert_eq; cbn -[showDashboard];
    (split; [congruence|]); (split; [congruence|]);
    apply Hstep; cbn; congruence.
Qed.

(** The theorem applied to the operator who grants the permission on a page
    without push key: the dashboard timer is timer 1. *)
Lemma permission_gates_polling_witness :
  let st := run Samples.fresh Samples.select_hospital in
  let st'' := fire 1 (enableNotifications Samples.granting st) in
  timers (enableNotifications Samples.granting st) = <[1 := DashboardTimer]> (timers st) /\
  stored (enableNotifications Samples.granting st) = Some Samples.hospital /\
  dashboard st'' = true /\
  inflight st'' = 1 /\
  last (log st'') = Some (FetchAlerts Samples.hospital) /\
  pollInterval st'' = Some 2 /\
  timers st'' !! 2 = Some PollTimer.
Proof.
  exact (proj1 (permission_gates_polling (run Samples.fresh Samples.select_hospital)
                  Samples.granting eq_refl eq_refl eq_refl)).
Defined.

(** C4 (as stated) fails: after the refusal there is no timer, no request and
    no dashboard, and the page can do nothing on its own any more; the
    operator is told to allow notifications. *)
Lemma refusal_stops_polling :
  let st := run Samples.fresh (Samples.select_hospital ++ [EnableClicked Samples.denying]) in
  selectedCenter st = Some Samples.hospital /\
  timers st = ∅ /\
  inflight st = 0 /\
  pollInterval st = None /\
  log st = [] /\
  dashboard st = false.
Proof. vm_compute. repeat split. Qed.

(** *** The polling timer *)

Ltac lookups :=
  repeat match goal with
         | H : <[_ := _]> _ !! _ = Some _ |- _ =>
             apply lookup_insert_Some in H as [[? ?]|[? ?]]
         | H : delete _ _ !! _ = Some _ |- _ =>
             apply lookup_delete_Some in H as [? ?]
         | H : Some _ = Some _ |- _ => injection H as H
         end.

Ltac timers_ok_tac :=
  match goal with
  | H : timers_ok _ |- _ => destruct H as (? & ? & ? & ?)
  end;
  unfold timers_ok; cbn in *;
  repeat split; intros; lookups; subst; try discriminate; try lia;
  try match goal with
      | Hlt : (forall id t, timers ?st !! id = Some t -> _),
        H : timers ?st !! _ = Some _ |- _ => pose proof (Hlt _ _ H)
      end;
  try match goal with
      | Hpoll : (forall id, timers ?st !! id = Some PollTimer -> _),
        H : timers ?st !! _ = Some PollTimer |- _ => apply Hpoll in H
      end;
  try match goal with
      | Hid : (forall id, pollInterval ?st = Some id -> _),
        H : pollInterval ?st = Some _ |- _ => pose proof (Hid _ H)
      end;
  repeat match goal with
         | H : negb (_ =? _)%nat = false |- _ => apply negb_false_iff, Nat.eqb_eq in H
         | H : negb (_ =? _)%nat = true |- _ => apply negb_true_iff, Nat.eqb_neq in H
         end;
  try congruence; try lia; simplify_eq; try lia.

Lemma timers_ok_init (saved dot : option string) : timers_ok (init saved dot).
Proof.
  unfold timers_ok. cbn. repeat split; intros; try lia;
    try rewrite lookup_empty in *; discriminate.
Qed.

Lemma timers_ok_step (st : page) (e : event) : timers_ok st -> timers_ok (step st e).
Proof.
  intros Hok. destruct e as [r|p|v|env| | |b|id|r|m]; page_functions.
  - by_cases; timers_ok_tac.
  - by_cases; timers_ok_tac.
  - by_cases; timers_ok_tac.
  - by_cases; timers_ok_tac.
  - by_cases; timers_ok_tac.
  - by_cases; timers_ok_tac.
  - by_cases; timers_ok_tac.
  - by_cases; timers_ok_tac.
  - unfold loadAlerts_resume, renderAlerts, showAlertModal, playEmergencySound, set_dot,
      add_timer. by_cases; timers_ok_tac.
  - by_cases; timers_ok_tac.
Qed.

Lemma timers_ok_run (st : page) (es : list event) :
  timers_ok st -> timers_ok (run st es).
Proof.
  revert st. induction es as [|e es IH]; intros st Hok; [exact Hok|].
  apply (IH (step st e)), timers_ok_step, Hok.
Qed.

Lemma polling_lookup (st : page) (id : nat) (t : timer) :
  polling st !! id = Some t <-> timers st !! id = Some PollTimer /\ t = PollTimer.
Proof.
  unfold polling. rewrite map_lookup_filter_Some. cbn. split.
  - intros [Hid ->]. split; [exact Hid|reflexivity].
  - intros [Hid ->]. split; [exact Hid|reflexivity].
Qed.

Lemma polling_at_most_one (st : page) : timers_ok st -> size (polling st) <= 1.
Proof.
  intros (_ & _ & Hpoll & _). destruct (pollInterval st) as [p|] eqn:Hp.
  - rewrite <- (map_size_singleton p PollTimer). apply map_subseteq_size.
    apply map_subseteq_spec. intros id t [Hid ->]%polling_lookup.
    apply Hpoll in Hid. injection Hid as <-. apply lookup_singleton_eq.
  - replace (polling st) with (∅ : gmap nat timer); [rewrite map_size_empty; lia|].
    symmetry. apply map_empty. intros id.
    destruct (polling st !! id) as [t|] eqn:Hid; [|reflexivity].
    apply polling_lookup in Hid as [Hid _]. apply Hpoll in Hid. discriminate.
Qed.

Lemma polling_showDashboard (st : page) :
  timers_ok st -> polling (showDashboard st) = {[ nextTimer st := PollTimer ]}.
Proof.
  intros (Hpos & Hlt & Hpoll & Hid). apply map_eq. intros id.
  destruct (decide (id = nextTimer st)) as [->|Hne].
  - rewrite lookup_singleton_eq. apply polling_lookup. split; [|reflexivity].
    unfold showDashboard, setOnline, loadAlerts, clear_timer, add_timer.
    by_cases; apply lookup_insert_eq.
  - rewrite lookup_singleton_ne by congruence.
    destruct (polling (showDashboard st) !! id) as [t|] eqn:Hl; [|reflexivity].
    exfalso. apply polling_lookup in Hl as [Hl _]. revert Hl.
    unfold showDashboard, setOnline, loadAlerts, clear_timer, add_timer.
    by_cases; intros Hl; cbn in *; lookups; try congruence;
      match goal with
      | H : timers st !! _ = Some PollTimer |- _ => apply Hpoll in H
      end;
      repeat match goal with
             | H : negb (_ =? _)%nat = false |- _ => apply negb_false_iff, Nat.eqb_eq in H
             end;
      simplify_eq;
      match goal with
      | H : pollInterval st = Some _ |- _ => apply Hid in H; lia
      end.
Qed.

Lemma polling_changeCenterView (st : page) :
  timers_ok st -> polling (changeCenterView st) = ∅.
Proof.
  intros (Hpos & Hlt & Hpoll & Hid). apply map_empty. intros id.
  destruct (polling (changeCenterView st) !! id) as [t|] eqn:Hl; [|reflexivity].
  exfalso. apply polling_lookup in Hl as [Hl _]. revert Hl.
  unfold changeCenterView, setOnline, clear_timer.
  destruct (pollInterval st) as [p|] eqn:Hp; cbn; intros Hl; lookups;
    match goal with
    | H : timers st !! _ = Some PollTimer |- _ => apply Hpoll in H; congruence
    end.
Qed.

(** C10: however the operator and the browser drive the page, at most one
    polling timer is active.  Entering the dashboard leaves exactly the
    15-second timer it has just started, any earlier one having been cleared,
    and leaving the dashboard leaves none. *)
Theorem at_most_one_polling_timer (saved dot : option string) (es : list event) :
  let st := run (init saved dot) es in
  size (polling st) <= 1 /\
  polling (showDashboard st) = {[ nextTimer st := PollTimer ]} /\
  delay PollTimer = 15000%Z /\
  polling (changeCenterView st) = ∅.
Proof.
  cbn zeta. pose proof (timers_ok_run _ es (timers_ok_init saved dot)) as Hok.
  split; [apply polling_at_most_one, Hok|].
  split; [apply polling_showDashboard, Hok|].
  split; [reflexivity|].
  apply polling_changeCenterView, Hok.
Qed.

(** *** The alert modal and its timer *)

(** Ids are not handed out twice, so the id in [pollInterval] never comes
    to name another timer. *)
Lemma pollInterval_ok_init (saved dot : option string) : pollInterval_ok (init saved dot).
Proof. intros id. cbn. discriminate. Qed.

Ltac pollInterval_ok_tac :=
  match goal with
  | H : timers_ok _ |- _ => destruct H as (? & ? & ? & ?)
  end;
  match goal with
  | H : pollInterval_ok _ |- _ => unfold pollInterval_ok in H
  end;
  unfold pollInterval_ok; cbn in *;
  intros ? Hnamed; simplify_eq;
  try match goal with
      | Hk : (forall id, pollInterval ?st = Some id -> _ /\ _),
        H : pollInterval ?st = Some _ |- _ => destruct (Hk _ H)
      end;
  (split; [lia|]);
  intros ? Hat; lookups; subst; try reflexivity; try lia; eauto.

Lemma pollInterval_ok_step (st : page) (e : event) :
  timers_ok st -> pollInterval_ok st -> pollInterval_ok (step st e).
Proof.
  intros Hok Hpoll. destruct e as [r|p|v|env| | |b|id|r|m]; page_functions;
    try unfold loadAlerts_resume, renderAlerts, showAlertModal, playEmergencySound,
      set_dot, add_timer;
    by_cases; pollInterval_ok_tac.
Qed.

Lemma pollInterval_ok_run (st : page) (es : list event) :
  timers_ok st -> pollInterval_ok st -> pollInterval_ok (run st es).
Proof.
  revert st. induction es as [|e es IH]; intros st Hok Hpoll; [exact Hpoll|].
  apply (IH (step st e)); [apply timers_ok_step, Hok|apply pollInterval_ok_step; assumption].
Qed.

(** A timeout of the modal waits until it fires: nothing clears it. *)
Lemma dot_timer_waits (st : page) (e : event) (id : nat) :
  timers_ok st -> pollInterval_ok st ->
  timers st !! id = Some DotTimer -> fires id e = false ->
  timers (step st e) !! id = Some DotTimer.
Proof.
  intros (Hpos & Hlt & Hpoll & Hid) Hnamed Hdot Hfire.
  pose proof (Hlt _ _ Hdot) as Hbelow.
  assert (Hother : forall p, pollInterval st = Some p -> p <> id).
  { intros p Hp ->. destruct (Hnamed _ Hp) as [_ Ht]. specialize (Ht _ Hdot). discriminate. }
  destruct e as [r|p|v|env| | |b|i|r|m]; page_functions;
    try unfold loadAlerts_resume, renderAlerts, showAlertModal, playEmergencySound,
      set_dot, add_timer;
    by_cases;
    cbn in Hfire; try apply Nat.eqb_neq in Hfire;
    repeat first
      [ rewrite lookup_insert_ne by lia
      | rewrite lookup_delete_ne
          by first [congruence | apply Hother; reflexivity | apply Hother; assumption] ];
    try exact Hdot.
Qed.

(** Only a dismissal hides the modal. *)
Lemma modal_stays (st : page) (e : event) :
  dismisses e = false -> modalShown st = true -> modalShown (step st e) = true.
Proof.
  intros He Hshown. destruct e as [r|p|v|env| | |b|i|r|m]; try discriminate He;
    page_functions;
    try unfold loadAlerts_resume, renderAlerts, showAlertModal, playEmergencySound,
      set_dot, add_timer;
    by_cases; try discriminate He; try exact Hshown; reflexivity.
Qed.

Lemma not_presented (l : list alert) (a : alert) : l <> l ++ [a].
Proof. intros H. apply (f_equal List.length) in H. rewrite length_app in H. cbn in H. lia. Qed.

(** An event that presents an alert fills the modal with it, displays it,
    turns the dot to "alerting" and starts the timeout. *)
Lemma presentation_starts_timer (st : page) (e : event) (a : alert) :
  presented (step st e) = presented st ++ [a] ->
  timers (step st e) !! nextTimer st = Some DotTimer /\
  modalShown (step st e) = true /\ modalData (step st e) = Some a /\
  statusDot (step st e) = (fun _ => "dot alerting") <$> statusDot st.
Proof.
  destruct e as [r|p|v|env| | |b|i|r|m]; page_functions;
    try unfold loadAlerts_resume, renderAlerts, showAlertModal, playEmergencySound,
      set_dot, add_timer;
    by_cases; unfold presented; cbn; rewrite ?omap_app; cbn; rewrite ?app_nil_r;
    intros H; try (apply not_presented in H; destruct H);
    apply app_inv_head in H; injection H as <-;
    rewrite ?lookup_insert_eq; repeat split.
Qed.

Lemma dot_timer_fires (st : page) (id : nat) :
  timers st !! id = Some DotTimer ->
  fire id st
  = set_statusDot ((fun _ => "dot online") <$> statusDot st)
      (set_timers (delete id (timers st)) st).
Proof. intros H. unfold fire. rewrite H. reflexivity. Qed.

Lemma modal_waits (st : page) (id : nat) (es : list event) :
  timers_ok st -> pollInterval_ok st ->
  timers st !! id = Some DotTimer -> modalShown st = true ->
  forallb (fun e => negb (dismisses e) && negb (fires id e)) es = true ->
  timers (run st es) !! id = Some DotTimer /\ modalShown (run st es) = true.
Proof.
  revert st. induction es as [|e es IH]; intros st Hok Hnamed Hdot Hshown Hes; [auto|].
  cbn in Hes. apply andb_true_iff in Hes as [[Hd Hf]%andb_true_iff Hes].
  apply negb_true_iff in Hd, Hf.
  apply (IH (step st e)); auto using timers_ok_step, pollInterval_ok_step,
    dot_timer_waits, modal_stays.
Qed.

Lemma modal_stays_run (st : page) (es : list event) :
  modalShown st = true ->
  forallb (fun e => negb (dismisses e)) es = true ->
  modalShown (run st es) = true.
Proof.
  revert st. induction es as [|e es IH]; intros st Hshown Hes; [exact Hshown|].
  cbn in Hes. apply andb_true_iff in Hes as [Hd Hes]. apply negb_true_iff in Hd.
  apply (IH (step st e)); auto using modal_stays.
Qed.

(** C6 (as amended): whenever an event presents an alert, a timeout of 60 s
    is started.  As long as the operator does not dismiss the modal, it
    stays displayed and the timeout stays active, whatever else happens on
    the page.  When the timeout fires it turns the header dot, if the page
    has one, to "online" and does nothing else: but for the dot and the
    spent timer the page is what it was, and the modal goes on being
    displayed until the operator dismisses it.  Only the dismissal hides the
    modal, and it turns the dot to "online" at once. *)
Theorem expiry_restores_dot_only
    (saved dot : option string) (before : list event) (e : event) (a : alert)
    (es es' : list event) :
  let st := run (init saved dot) before in
  let id := nextTimer st in
  let st1 := step st e in
  let st2 := run st1 es in
  let st3 := fire id st2 in
  presented st1 = presented st ++ [a] ->
  forallb (fun e => negb (dismisses e) && negb (fires id e)) es = true ->
  forallb (fun e => negb (dismisses e)) es' = true ->
  (timers st1 !! id = Some DotTimer /\ delay DotTimer = 60000%Z /\
   modalShown st1 = true /\ modalData st1 = Some a /\
   statusDot st1 = (fun _ => "dot alerting") <$> statusDot st) /\
  (timers st2 !! id = Some DotTimer /\ modalShown st2 = true) /\
  st3 = set_statusDot ((fun _ => "dot online") <$> statusDot st2)
          (set_timers (delete id (timers st2)) st2) /\
  modalShown (run st3 es') = true /\
  (forall s, modalShown (dismissAlertBtn s) = false /\
             statusDot (dismissAlertBtn s) = (fun _ => "dot online") <$> statusDot s).
Proof.
  cbn zeta. intros Hshow Hes Hes'.
  pose proof (timers_ok_run _ before (timers_ok_init saved dot)) as Hok.
  pose proof (pollInterval_ok_run _ before (timers_ok_init saved dot)
                (pollInterval_ok_init saved dot)) as Hnamed.
  destruct (presentation_starts_timer _ e a Hshow) as (Hdot & Hshown & Hdata & Hcls).
  destruct (modal_waits (step (run (init saved dot) before) e) _ es
              (timers_ok_step _ e Hok) (pollInterval_ok_step _ e Hok Hnamed)
              Hdot Hshown Hes) as [Hdot2 Hshown2].
  split; [repeat split; assumption|]. split; [split; assumption|].
  split; [apply dot_timer_fires, Hdot2|].
  split.
  - apply modal_stays_run; [|exact Hes']. rewrite (dot_timer_fires _ _ Hdot2). exact Hshown2.
  - intros s. unfold dismissAlertBtn, set_dot. split; reflexivity.
Qed.

(** The theorem applied to the alert [T1] that a poll presents: the next
    poll finds nothing new, the timeout (timer 3) fires, and after another
    poll and a click inside the modal the modal is still displayed. *)
Lemma expiry_restores_dot_only_witness :
  let a0 := Samples.alert_at Samples.T0 3 in
  let a1 := Samples.alert_at Samples.T1 1 in
  let st :=
    run Samples.fresh (Samples.open_dashboard ++ [AlertsArrived (Feed [a0]); TimerFired 2]) in
  let st1 := step st (AlertsArrived (Feed [a1; a0])) in
  let st2 := run st1 [TimerFired 2; AlertsArrived (Feed [a1; a0])] in
  let st3 := fire 3 st2 in
  timers st2 !! 3 = Some DotTimer /\
  st3 = set_statusDot (Some "dot online") (set_timers (delete 3 (timers st2)) st2) /\
  modalShown (run st3 [TimerFired 2; ModalClicked false]) = true.
Proof.
  cbn zeta.
  destruct (expiry_restores_dot_only None (Some "dot offline")
              (Samples.open_dashboard
               ++ [AlertsArrived (Feed [Samples.alert_at Samples.T0 3]); TimerFired 2])
              (AlertsArrived (Feed [Samples.alert_at Samples.T1 1; Samples.alert_at Samples.T0 3]))
              (Samples.alert_at Samples.T1 1)
              [TimerFired 2;
               AlertsArrived (Feed [Samples.alert_at Samples.T1 1; Samples.alert_at Samples.T0 3])]
              [TimerFired 2; ModalClicked false]
              eq_refl eq_refl eq_refl) as (_ & [Hwaits _] & Hfire & Hstays & _).
  split; [exact Hwaits|]. split; [exact Hfire|exact Hstays].
Defined.

(** C6 (as stated) fails: the poll presents [T1] (the timeout gets id 3);
    the timeout fires, nobody has dismissed anything, and the modal is still
    displayed. *)
Lemma modal_outlives_expiry :
  let shown :=
    run Samples.fresh
      (Samples.open_dashboard
       ++ [AlertsArrived (Feed [Samples.alert_at Samples.T0 3]); TimerFired 2;
           AlertsArrived (Feed [Samples.alert_at Samples.T1 1; Samples.alert_at Samples.T0 3])]) in
  let st := step shown (TimerFired 3) in
  timers shown !! 3 = Some DotTimer /\
  statusDot shown = Some "dot alerting" /\
  timers st !! 3 = None /\
  statusDot st = Some "dot online" /\
  modalShown st = true /\
  modalData st = Some (Samples.alert_at Samples.T1 1).
Proof. vm_compute. repeat split. Qed.

End PageFacts.

(** ** The map of a result *)

Module MapFacts.

Import MainPage.

Local Open Scope list_scope.

Lemma add_markers_all (lib : library) (services : list service) (m : leaflet) :
  Forall (fun s => takes lib (lat s) (lon s) = true) services ->
  add_markers lib services m
  = ({| view := view m; incident := incident m; markers := markers m ++ services;
        removed := removed m |}, true).
Proof.
  revert m. induction services as [|s services IH]; intros m Hall.
  - cbn. rewrite app_nil_r. destruct m; reflexivity.
  - apply Forall_cons in Hall as [Hs Hall]. cbn [add_markers]. rewrite Hs, (IH _ Hall).
    cbn. rewrite <- app_assoc. reflexivity.
Qed.

Lemma add_markers_stop
    (lib : library) (before : list service) (bad : service) (after : list service)
    (m : leaflet) :
  Forall (fun s => takes lib (lat s) (lon s) = true) before ->
  takes lib (lat bad) (lon bad) = false ->
  add_markers lib (before ++ bad :: after) m
  = ({| view := view m; incident := incident m; markers := markers m ++ before;
        removed := removed m |}, false).
Proof.
  revert m. induction before as [|s before IH]; intros m Hall Hbad.
  - cbn. rewrite Hbad, app_nil_r. destruct m; reflexivity.
  - apply Forall_cons in Hall as [Hs Hall]. cbn [app add_markers].
    rewrite Hs, (IH _ Hall Hbad). cbn. rewrite <- app_assoc. reflexivity.
Qed.

(** The map is drawn when Leaflet goes along: it removes the map stored for
    the result, if there is one, builds the new one in the container and
    takes the positions of the incident and of every service. *)
Lemma map_drawn
    (st : state) (index : nat) (sec : section) (data : geocoded) (loc : place) :
  sections st !! index = Some sec ->
  found data = true ->
  location data = Some loc ->
  (forall m, mapInstances st !! mapId index = Some m -> removes (L st) m = true) ->
  builds (L st) sec = true ->
  takes (L st) (p_lat loc) (p_lon loc) = true ->
  Forall (fun s => takes (L st) (lat s) (lon s) = true) (default [] (emergency_services data)) ->
  let services := default [] (emergency_services data) in
  let st' := showMapForResult index (Data data) st in
  sections st' !! index
  = Some {| hidden := hidden sec;
            centers := if (List.length services =? 0)%nat
                       then Paragraph "no-centers" "No help centers found nearby."
                       else Listing (List.length services) services;
            built := true |} /\
  (forall other, other <> index -> sections st' !! other = sections st !! other) /\
  mapInstances st' !! mapId index
  = Some {| view := (p_lat loc, p_lon loc, 14%Z); incident := display_name loc;
            markers := services; removed := false |} /\
  resizes st' = resizes st ++ [mapId index].
Proof.
  intros Hsec Hfound Hloc Hrem Hbuild Htake Hall. cbn zeta.
  unfold showMapForResult. rewrite Hfound. cbn [negb].
  assert (Hstored : exists st0, remove_stored index st = Some st0 /\
                      L st0 = L st /\ sections st0 = sections st /\ resizes st0 = resizes st).
  { unfold remove_stored. destruct (mapInstances st !! mapId index) as [m|] eqn:Hm.
    - rewrite (Hrem m eq_refl). eexists. split; [reflexivity|]. repeat split.
    - exists st. repeat split. }
  destruct Hstored as (st0 & -> & HL & Hsecs & Hres).
  rewrite Hsecs, Hsec, HL, Hbuild. cbn [negb]. rewrite Hloc.
  cbn [build L]. rewrite HL, Htake. cbn [negb].
  rewrite (add_markers_all _ _ _ Hall). cbn [fst snd negb markers app view incident removed].
  destruct (List.length (default [] (emergency_services data)) =? 0)%nat; cbn;
    rewrite Hsecs, Hres, lookup_insert_eq, !lookup_alter_eq, Hsec; cbn;
    (split; [reflexivity|]); (split; [|split; reflexivity]);
    intros other Hother; rewrite !lookup_alter_ne by congruence; reflexivity.
Qed.

(** C9: when the geocoder found the place (its answer carries the location)
    and lists no emergency service, an empty list or none at all, and
    Leaflet draws the map of the place, then the section of the result,
    which the caller has put into the document, shows the paragraph "No help
    centers found nearby." in place of the list; its visibility is
    untouched, so a section that was visible stays visible, and the map is
    drawn with the incident alone.  Leaflet draws the map when it removes
    the map stored for the result, if there is one, builds the new one in
    the container and takes the position of the incident. *)
Theorem empty_services_message
    (st : state) (index : nat) (sec : section) (data : geocoded) (loc : place) :
  sections st !! index = Some sec ->
  found data = true ->
  location data = Some loc ->
  default [] (emergency_services data) = [] ->
  (forall m, mapInstances st !! mapId index = Some m -> removes (L st) m = true) ->
  builds (L st) sec = true ->
  takes (L st) (p_lat loc) (p_lon loc) = true ->
  let st' := showMapForResult index (Data data) st in
  sections st' !! index
  = Some {| hidden := hidden sec;
            centers := Paragraph "no-centers" "No help centers found nearby.";
            built := true |} /\
  (forall other, other <> index -> sections st' !! other = sections st !! other) /\
  mapInstances st' !! mapId index
  = Some {| view := (p_lat loc, p_lon loc, 14%Z); incident := display_name loc;
            markers := []; removed := false |}.
Proof.
  intros Hsec Hfound Hloc Hnone Hrem Hbuild Htake. cbn zeta.
  destruct (map_drawn st index sec data loc Hsec Hfound Hloc Hrem Hbuild Htake)
    as (Hpanel & Hothers & Hmap & _).
  { rewrite Hnone. constructor. }
  rewrite Hnone in Hpanel, Hmap. cbn in Hpanel. auto.
Qed.

(** The theorem applied to the first result of the call page and a place
    with nothing around it. *)
Lemma empty_services_message_witness :
  sections (showMapForResult 0 (Data Samples.remote_place) Samples.one_section) !! 0
  = Some {| hidden := false;
            centers := Paragraph "no-centers" "No help centers found nearby.";
            built := true |}.
Proof.
  refine (proj1 (empty_services_message Samples.one_section 0
                   {| hidden := false; centers := Spinner; built := false |}
                   Samples.remote_place
                   {| p_lat := "61.52"; p_lon := "105.31";
                      display_name := "Evenkiysky District" |}
                   eq_refl eq_refl eq_refl eq_refl _ eq_refl eq_refl)).
  intros m Hm. vm_compute in Hm. discriminate Hm.
Defined.

End MapFacts.

(** ** The click on a notification *)

Module ClickFacts.

Import ServiceWorker.
Local Open Scope list_scope.

Lemma starts_with_spec (sub s : string) :
  starts_with sub s = true <-> exists post, s = (sub ++ post)%string.
Proof.
  revert s. induction sub as [|a sub IH]; intros s; cbn.
  - split; [intros _; exists s; reflexivity | reflexivity].
  - destruct s as [|b s]; [split; [discriminate | intros [post [=]]]|].
    rewrite andb_true_iff, IH. split.
    + intros [Hab [post ->]]. apply Ascii.eqb_eq in Hab as ->. exists post. reflexivity.
    + intros [post [= -> ->]]. split; [apply Ascii.eqb_refl | exists post; reflexivity].
Qed.

(** [includes] is the search for a substring. *)
Lemma includes_spec (s sub : string) :
  includes s sub = true <-> exists pre post, s = (pre ++ sub ++ post)%string.
Proof.
  induction s as [|b s IH].
  - cbn [includes]. rewrite orb_false_r, starts_with_spec. split.
    + intros [post ->]. exists "", post. reflexivity.
    + intros (pre & post & H). destruct pre; [exists post; exact H|discriminate].
  - cbn [includes]. rewrite orb_true_iff, starts_with_spec, IH. split.
    + intros [[post ->]|(pre & post & ->)].
      * exists "", post. reflexivity.
      * exists (String b pre), post. reflexivity.
    + intros (pre & post & H). destruct pre as [|a pre].
      * left. exists post. exact H.
      * right. injection H as -> ->. exists pre, post. reflexivity.
Qed.

Lemma response_app_first (clients : list client) (c : client) :
  response_app clients = Some c <->
  exists before after,
    clients = before ++ c :: after /\
    includes (url c) ":5020" = true /\ focusable c = true /\
    Forall (fun c' => includes (url c') ":5020" && focusable c' = false) before.
Proof.
  unfold response_app. induction clients as [|c' clients IH]; cbn.
  - split; [discriminate|]. intros (before & after & H & _). destruct before; discriminate.
  - destruct (includes (url c') ":5020" && focusable c') eqn:Hc'.
    + split.
      * intros [= ->]. apply andb_true_iff in Hc' as [Hu Hf].
        exists [], clients. repeat split; [exact Hu|exact Hf|constructor].
      * intros (before & after & H & Hu & Hf & Hbefore).
        destruct before as [|b before]; cbn in H.
        -- injection H as -> _. reflexivity.
        -- injection H as -> _. apply Forall_cons in Hbefore as [Hb _]. congruence.
    + rewrite IH. split.
      * intros (before & after & -> & Hu & Hf & Hbefore).
        exists (c' :: before), after. repeat split; [exact Hu|exact Hf|].
        constructor; assumption.
      * intros (before & after & H & Hu & Hf & Hbefore).
        destruct before as [|b before]; cbn in H.
        -- injection H as -> _. rewrite Hu, Hf in Hc'. discriminate.
        -- injection H as -> ->. apply Forall_cons in Hbefore as [_ Hbefore].
           exists before, after. repeat split; assumption.
Qed.

(** X1: a click hands the alert over at most once, and a click on "dismiss"
    hands over nothing: whatever the notification, the open windows and the
    answer of [openWindow], the listener closes the notification first, sends
    at most one message, sends none after "dismiss", and what it sends is the
    data of the notification ([{}] when that is falsy). *)
Theorem click_hands_over_at_most_once
    (action : string) (n : notification) (clients : list client) (opened : option nat) :
  let did := on_notificationclick action n clients opened in
  head did = Some Closed /\
  List.length (handed_over did) <= 1 /\
  Forall (fun p => p = JS.or_else (n_data n) (JS.Obj [])) (handed_over did) /\
  (if String.eqb action "dismiss" then did = [Closed]
   else handed_over did = [] <-> response_app clients = None /\ opened = None).
Proof.
  cbn zeta. unfold on_notificationclick.
  destruct (String.eqb action "dismiss").
  - cbn. repeat split; [lia|constructor].
  - destruct (response_app clients) as [c|]; [|destruct opened as [w|]]; cbn.
    + repeat split; try lia; try discriminate; [repeat constructor|intros [[=] _]].
    + repeat split; try lia; try discriminate; [repeat constructor|intros [_ [=]]].
    + repeat split; try lia; constructor.
Qed.

(** X2: when the response app is open, the click goes to it and to it
    alone: the first window whose address contains ":5020" is focused and
    gets the message, no window is opened and no other window gets
    anything. *)
Theorem click_reaches_open_app
    (action : string) (n : notification) (before after : list client) (c : client)
    (opened : option nat) :
  action <> "dismiss" ->
  (exists pre post, url c = (pre ++ ":5020" ++ post)%string) ->
  focusable c = true ->
  Forall (fun c' => includes (url c') ":5020" && focusable c' = false) before ->
  on_notificationclick action n (before ++ c :: after) opened
  = [Closed; Focused (client_id c);
     Posted (client_id c) (JS.or_else (n_data n) (JS.Obj []))].
Proof.
  intros Haction Hurl Hfocus Hbefore. unfold on_notificationclick.
  apply String.eqb_neq in Haction. rewrite Haction.
  assert (Hc : response_app (before ++ c :: after) = Some c).
  { apply response_app_first. exists before, after.
    repeat split; [apply includes_spec, Hurl|exact Hfocus|exact Hbefore]. }
  rewrite Hc. reflexivity.
Qed.

(** The theorem applied to a click on "view" while the call app and the
    response app are both open. *)
Lemma click_reaches_open_app_witness :
  on_notificationclick "view" Samples.smoke_notification
    [Samples.call_window; Samples.response_window] None
  = [Closed; Focused 2;
     Posted 2 (JS.Obj [("body", JS.Str "Caller reports smoke"); ("priority", JS.Num 2)])].
Proof.
  apply (click_reaches_open_app "view" Samples.smoke_notification
           [Samples.call_window] [] Samples.response_window None).
  - discriminate.
  - exists "http://localhost", "/". reflexivity.
  - reflexivity.
  - repeat constructor.
Defined.

(** X3: when no window of the response app is open, the click opens exactly
    one, at [http://localhost:5020], and posts nothing at once: the message
    waits 2000 ms for the new page, and is not sent at all when the browser
    gives no client back. *)
Theorem click_opens_app
    (action : string) (n : notification) (clients : list client) (opened : option nat) :
  action <> "dismiss" ->
  Forall (fun c => forall pre post, url c <> (pre ++ ":5020" ++ post)%string) clients ->
  on_notificationclick action n clients opened
  = Closed :: Opened "http://localhost:5020"
    :: match opened with
       | Some w => [PostedLater 2000 w (JS.or_else (n_data n) (JS.Obj []))]
       | None => []
       end.
Proof.
  intros Haction Hnone. unfold on_notificationclick.
  apply String.eqb_neq in Haction. rewrite Haction.
  destruct (response_app clients) as [c|] eqn:Hc; [exfalso|reflexivity].
  apply response_app_first in Hc as (before & after & -> & Hu & _).
  apply includes_spec in Hu as (pre & post & Hu).
  apply Forall_app in Hnone as [_ Hnone]. apply Forall_cons in Hnone as [Hnone _].
  exact (Hnone pre post Hu).
Qed.

(** The theorem applied to a click on the notification itself while only the
    call app is open; the browser opens window 7. *)
Lemma click_opens_app_witness :
  on_notificationclick "" Samples.smoke_notification [Samples.call_window] (Some 7)
  = [Closed; Opened "http://localhost:5020";
     PostedLater 2000 7
       (JS.Obj [("body", JS.Str "Caller reports smoke"); ("priority", JS.Num 2)])].
Proof.
  apply (click_opens_app "" Samples.smoke_notification [Samples.call_window] (Some 7)).
  - discriminate.
  - constructor; [|constructor].
    intros pre post H.
    assert (Hin : includes (url Samples.call_window) ":5020" = true)
      by (apply includes_spec; exists pre, post; exact H).
    vm_compute in Hin. discriminate Hin.
Defined.

Lemma on_push_data (inherited : string -> option string) (ev : push_event) (n : notification) :
  on_push inherited ev = Notified n -> n_data n = payload ev.
Proof.
  unfold on_push. destruct (JS.get (payload ev) "priority") as [p|]; [|discriminate].
  destruct (JS.to_string p); [|discriminate]. intros [= <-]. reflexivity.
Qed.

(** X4: push and click compose.  Whatever notification the [push] listener
    showed for a push, a click on it that is no "dismiss" hands the page the
    payload of that push ([{}] when the payload is falsy), provided a window
    of the response app is open or the browser opens one. *)
Theorem push_then_click_hands_over_payload
    (inherited : string -> option string) (ev : push_event) (n : notification)
    (action : string) (clients : list client) (opened : option nat) :
  on_push inherited ev = Notified n ->
  action <> "dismiss" ->
  is_Some (response_app clients) \/ is_Some opened ->
  handed_over (on_notificationclick action n clients opened)
  = [JS.or_else (payload ev) (JS.Obj [])].
Proof.
  intros Hn Haction Hsome. unfold on_notificationclick.
  apply String.eqb_neq in Haction. rewrite Haction, (on_push_data _ _ _ Hn).
  destruct (response_app clients) as [c|]; [reflexivity|].
  destruct opened as [w|]; [reflexivity|].
  destruct Hsome as [[? [=]]|[? [=]]].
Qed.

(** The theorem applied to [untitled_push], clicked while the response app
    is open. *)
Lemma push_then_click_hands_over_payload_witness :
  handed_over (on_notificationclick "view" Samples.smoke_notification
                 [Samples.call_window; Samples.response_window] None)
  = [JS.Obj [("body", JS.Str "Caller reports smoke"); ("priority", JS.Num 2)]].
Proof.
  apply (push_then_click_hands_over_payload (fun _ => None) Samples.untitled_push
           Samples.smoke_notification "view"
           [Samples.call_window; Samples.response_window] None).
  - reflexivity.
  - discriminate.
  - left. eexists. reflexivity.
Defined.

End ClickFacts.

(** ** The map of a result, in general *)

Module MapExtras.

Import MainPage.
Local Open Scope list_scope.

Lemma mapId_inj (i j : nat) : mapId i = mapId j -> i = j.
Proof. unfold mapId. cbn. intros [= H]. apply (inj pretty), H. Qed.

Ltac map_cases :=
  unfold showMapForResult, on_error, remove_stored;
  repeat (cbn [negb sections mapInstances resizes L remove_map build set_map later_resize];
          match goal with
          | |- context [match ?x with _ => _ end] =>
              lazymatch x with
              | context [match _ with _ => _ end] => fail
              | _ => destruct x eqn:?
              end
          end);
  unfold hide, show_panel;
  cbn [negb sections mapInstances resizes L remove_map build set_map later_resize].

Ltac section_lookups :=
  repeat first
    [ rewrite lookup_alter_eq
    | rewrite lookup_alter_ne by congruence
    | rewrite lookup_insert_ne by congruence ].

(** What a call does to the section of its result: it ends hidden with its
    panel as it was and no resize waiting, or visible as before with a
    paragraph or a list in the panel and a resize waiting. *)
Lemma section_outcome (index : nat) (ans : answer) (st : state) (sec : section) :
  sections st !! index = Some sec ->
  let st' := showMapForResult index ans st in
  (exists b, sections st' !! index
             = Some {| hidden := true; centers := centers sec; built := b |} /\
             resizes st' = resizes st) \/
  (exists p, sections st' !! index
             = Some {| hidden := hidden sec; centers := p; built := true |} /\
             p <> Spinner /\ resizes st' = resizes st ++ [mapId index]).
Proof.
  intros Hsec. cbn zeta. map_cases; section_lookups; simplify_eq;
    repeat match goal with
           | H : sections ?s !! ?i = Some _ |- context [sections ?s !! ?i] => rewrite H
           end;
    cbn;
    first [ left; eexists; split; reflexivity
          | right; eexists; split; [reflexivity|]; split; [discriminate|reflexivity] ].
Qed.

(** X5: the spinner never stays.  Whatever the geocoding request ends in,
    and whatever Leaflet does with the answer, the section of the result
    afterwards either is hidden or shows something else than the spinner
    [createMapSection] put there. *)
Theorem spinner_never_stays (index : nat) (ans : answer) (st : state) (sec : section) :
  sections st !! index = Some sec ->
  exists sec',
    sections (showMapForResult index ans st) !! index = Some sec' /\
    (hidden sec' = true \/ centers sec' <> Spinner).
Proof.
  intros Hsec.
  destruct (section_outcome index ans st sec Hsec) as [(b & -> & _)|(p & -> & Hp & _)];
    eexists; (split; [reflexivity|]); [left; reflexivity|right; exact Hp].
Qed.

(** The theorem applied to a request that got no answer. *)
Lemma spinner_never_stays_witness :
  exists sec',
    sections (showMapForResult 0 NoAnswer Samples.one_section) !! 0 = Some sec' /\
    (hidden sec' = true \/ centers sec' <> Spinner).
Proof.
  exact (spinner_never_stays 0 NoAnswer Samples.one_section
           {| hidden := false; centers := Spinner; built := false |} eq_refl).
Defined.

(** X6: the map of one result leaves the others alone: whatever the answer,
    the sections and the Leaflet maps of all other results are what they
    were. *)
Theorem other_results_untouched (index other : nat) (ans : answer) (st : state) :
  other <> index ->
  sections (showMapForResult index ans st) !! other = sections st !! other /\
  mapInstances (showMapForResult index ans st) !! mapId other
  = mapInstances st !! mapId other.
Proof.
  intros Hother.
  assert (Hid : mapId index <> mapId other) by (intros H; apply mapId_inj in H; congruence).
  assert (Hne : index <> other) by congruence.
  map_cases; section_lookups; split; reflexivity.
Qed.

(** The theorem applied to the second result while the map of the first is
    drawn. *)
Lemma other_results_untouched_witness :
  sections (showMapForResult 0 (Data Samples.busy_place) Samples.one_section) !! 1
  = sections Samples.one_section !! 1 /\
  mapInstances (showMapForResult 0 (Data Samples.busy_place) Samples.one_section) !! mapId 1
  = mapInstances Samples.one_section !! mapId 1.
Proof.
  apply (other_results_untouched 0 1 (Data Samples.busy_place) Samples.one_section).
  discriminate.
Defined.

(** X7: the list and the map agree.  For a place that was found with at
    least one service around it, and a Leaflet that draws the map (it
    removes the map stored for the result, if there is one, builds the new
    one in the container and takes the positions of the incident and of
    every service), the panel lists exactly the services of the answer, in
    the order of the answer, under a header that counts them, the map
    carries a marker for each of them, and the section stays as visible as
    it was. *)
Theorem list_and_map_agree
    (index : nat) (data : geocoded) (loc : place) (services : list service)
    (st : state) (sec : section) :
  sections st !! index = Some sec ->
  found data = true ->
  location data = Some loc ->
  emergency_services data = Some services ->
  services <> [] ->
  (forall m, mapInstances st !! mapId index = Some m -> removes (L st) m = true) ->
  builds (L st) sec = true ->
  takes (L st) (p_lat loc) (p_lon loc) = true ->
  Forall (fun s => takes (L st) (lat s) (lon s) = true) services ->
  let st' := showMapForResult index (Data data) st in
  sections st' !! index
  = Some {| hidden := hidden sec; centers := Listing (List.length services) services;
            built := true |} /\
  mapInstances st' !! mapId index
  = Some {| view := (p_lat loc, p_lon loc, 14%Z); incident := display_name loc;
            markers := services; removed := false |} /\
  resizes st' = resizes st ++ [mapId index].
Proof.
  intros Hsec Hfound Hloc Hserv Hne Hrem Hbuild Htake Hall. cbn zeta.
  destruct (MapFacts.map_drawn st index sec data loc Hsec Hfound Hloc Hrem Hbuild Htake)
    as (Hpanel & _ & Hmap & Hres).
  { rewrite Hserv. exact Hall. }
  rewrite Hserv in Hpanel, Hmap. cbn [default] in Hpanel, Hmap.
  destruct services as [|s services]; [congruence|].
  split; [exact Hpanel|]. split; [exact Hmap|exact Hres].
Qed.

(** The theorem applied to a place with two services. *)
Lemma list_and_map_agree_witness :
  sections (showMapForResult 0 (Data Samples.busy_place) Samples.one_section) !! 0
  = Some {| hidden := false; centers := Listing 2 Samples.two_services; built := true |}.
Proof.
  refine (proj1 (list_and_map_agree 0 Samples.busy_place
                   {| p_lat := "17.385"; p_lon := "78.486";
                      display_name := "Market Square, Hyderabad" |}
                   Samples.two_services Samples.one_section
                   {| hidden := false; centers := Spinner; built := false |}
                   eq_refl eq_refl eq_refl eq_refl ltac:(discriminate) _ eq_refl eq_refl _)).
  - intros m Hm. vm_compute in Hm. discriminate Hm.
  - repeat constructor.
Defined.

(** X19: one position Leaflet does not take costs the whole list.  When the
    place was found and Leaflet has drawn the map up to a service whose
    position [L.marker] throws on, the section of the result is hidden, its
    panel is as it was, no resize is scheduled, and the map in
    [mapInstances] carries the markers of the services before that one and
    no others; the services of the answer are not listed. *)
Theorem rejected_position_hides_section
    (index : nat) (data : geocoded) (loc : place)
    (before : list service) (bad : service) (after : list service)
    (st : state) (sec : section) :
  sections st !! index = Some sec ->
  found data = true ->
  location data = Some loc ->
  emergency_services data = Some (before ++ bad :: after) ->
  (forall m, mapInstances st !! mapId index = Some m -> removes (L st) m = true) ->
  builds (L st) sec = true ->
  takes (L st) (p_lat loc) (p_lon loc) = true ->
  Forall (fun s => takes (L st) (lat s) (lon s) = true) before ->
  takes (L st) (lat bad) (lon bad) = false ->
  let st' := showMapForResult index (Data data) st in
  sections st' !! index
  = Some {| hidden := true; centers := centers sec; built := true |} /\
  mapInstances st' !! mapId index
  = Some {| view := (p_lat loc, p_lon loc, 14%Z); incident := display_name loc;
            markers := before; removed := false |} /\
  resizes st' = resizes st.
Proof.
  intros Hsec Hfound Hloc Hserv Hrem Hbuild Htake Hall Hbad. cbn zeta.
  unfold showMapForResult, on_error. rewrite Hfound. cbn [negb].
  assert (Hstored : exists st0, remove_stored index st = Some st0 /\
                      L st0 = L st /\ sections st0 = sections st /\ resizes st0 = resizes st).
  { unfold remove_stored. destruct (mapInstances st !! mapId index) as [m|] eqn:Hm.
    - rewrite (Hrem m eq_refl). eexists. split; [reflexivity|]. repeat split.
    - exists st. repeat split. }
  destruct Hstored as (st0 & -> & HL & Hsecs & Hres).
  rewrite Hsecs, Hsec, HL, Hbuild. cbn [negb]. rewrite Hloc.
  cbn [build L]. rewrite HL, Htake, Hserv. cbn [negb default from_option id].
  rewrite (MapFacts.add_markers_stop _ _ _ _ _ Hall Hbad).
  unfold hide. cbn. rewrite Hsecs, Hres, lookup_insert_eq, !lookup_alter_eq, Hsec.
  repeat split.
Qed.

(** The theorem applied to a place whose second service comes without a
    position: the hospital before it is on the map, the section is hidden. *)
Lemma rejected_position_hides_section_witness :
  let st' := showMapForResult 0 (Data Samples.patchy_place) Samples.one_section in
  sections st' !! 0 = Some {| hidden := true; centers := Spinner; built := true |} /\
  markers <$> mapInstances st' !! mapId 0 = Some [Samples.city_hospital].
Proof.
  cbn zeta.
  destruct (rejected_position_hides_section 0 Samples.patchy_place
              {| p_lat := "17.385"; p_lon := "78.486";
                 display_name := "Market Square, Hyderabad" |}
              [Samples.city_hospital] Samples.unplaced_station [Samples.police_station]
              Samples.one_section
              {| hidden := false; centers := Spinner; built := false |}
              eq_refl eq_refl eq_refl eq_refl) as (Hsec & Hmap & _).
  - intros m Hm. vm_compute in Hm. discriminate Hm.
  - reflexivity.
  - reflexivity.
  - repeat constructor.
  - reflexivity.
  - split; [exact Hsec|]. rewrite Hmap. reflexivity.
Defined.

(** X8: every failure of the request ends in a hidden section.  When the
    request fails, the place was not found or the answer lacks the
    coordinates, the section of the result is hidden with its panel as it
    was, no resize is scheduled and nothing is added to [mapInstances]: a
    map that is there afterwards was there before, at most marked as
    removed.  Only an answer that says found and lacks the coordinates gets
    as far as Leaflet: by then [L.map] has built a map in the hidden
    container, unless Leaflet threw before; in the other cases the container
    is as it was. *)
Theorem failure_hides_section (index : nat) (ans : answer) (st : state) (sec : section) :
  sections st !! index = Some sec ->
  unusable ans = true ->
  let st' := showMapForResult index ans st in
  let reached :=
    match ans with
    | Data data =>
        found data &&
        match mapInstances st !! mapId index with
        | Some m => removes (L st) m
        | None => true
        end &&
        builds (L st) sec
    | _ => false
    end in
  sections st' !! index
  = Some {| hidden := true; centers := centers sec; built := built sec || reached |} /\
  resizes st' = resizes st /\
  forall id m', mapInstances st' !! id = Some m' ->
    exists m, mapInstances st !! id = Some m /\
              view m' = view m /\ incident m' = incident m /\ markers m' = markers m.
Proof.
  intros Hsec Hbad. cbn zeta.
  assert (Hsame : forall id m', mapInstances st !! id = Some m' ->
            exists m, mapInstances st !! id = Some m /\
                      view m' = view m /\ incident m' = incident m /\ markers m' = markers m).
  { intros id m' H. exists m'. repeat split. exact H. }
  assert (Hmarked : forall id m',
            alter (fun m => {| view := view m; incident := incident m;
                               markers := markers m; removed := true |})
              (mapId index) (mapInstances st) !! id = Some m' ->
            exists m, mapInstances st !! id = Some m /\
                      view m' = view m /\ incident m' = incident m /\ markers m' = markers m).
  { intros id m'. rewrite lookup_alter. case_decide.
    - subst id. destruct (mapInstances st !! mapId index) as [m|]; [|discriminate].
      cbn. intros [= <-]. exists m. repeat split.
    - apply Hsame. }
  destruct ans as [| | |data]; cbn in Hbad; try discriminate Hbad.
  1-3: unfold showMapForResult, on_error, hide; cbn; rewrite lookup_alter_eq, Hsec; cbn;
       rewrite orb_false_r; repeat split; exact Hsame.
  destruct (found data) eqn:Hfound.
  2:{ unfold showMapForResult. rewrite Hfound. unfold hide. cbn.
      rewrite lookup_alter_eq, Hsec. cbn. rewrite orb_false_r. repeat split; exact Hsame. }
  cbn in Hbad. apply bool_decide_eq_true in Hbad.
  unfold showMapForResult, on_error, remove_stored. rewrite Hfound, Hbad. cbn [negb andb].
  destruct (mapInstances st !! mapId index) as [m|] eqn:Hm.
  - destruct (removes (L st) m); cbn [andb remove_map sections L].
    + rewrite Hsec. destruct (builds (L st) sec); unfold hide, build; cbn;
        section_lookups; rewrite Hsec; cbn; rewrite ?orb_true_r, ?orb_false_r;
        (split; [reflexivity|]); (split; [reflexivity|exact Hmarked]).
    + unfold hide. cbn. rewrite lookup_alter_eq, Hsec. cbn. rewrite orb_false_r.
      repeat split; exact Hsame.
  - rewrite Hsec. cbn [andb]. destruct (builds (L st) sec); unfold hide, build; cbn;
      section_lookups; rewrite Hsec; cbn; rewrite ?orb_true_r, ?orb_false_r;
      (split; [reflexivity|]); (split; [reflexivity|exact Hsame]).
Qed.

(** The theorem applied to a place the geocoder did not find, and to an
    answer that says found and has no coordinates: the hidden container
    holds a map then. *)
Lemma failure_hides_section_witness :
  sections (showMapForResult 0
              (Data {| found := false; location := None; emergency_services := None |})
              Samples.one_section) !! 0
  = Some {| hidden := true; centers := Spinner; built := false |} /\
  sections (showMapForResult 0
              (Data {| found := true; location := None; emergency_services := None |})
              Samples.one_section) !! 0
  = Some {| hidden := true; centers := Spinner; built := true |}.
Proof.
  split.
  - exact (proj1 (failure_hides_section 0
                    (Data {| found := false; location := None; emergency_services := None |})
                    Samples.one_section
                    {| hidden := false; centers := Spinner; built := false |}
                    eq_refl eq_refl)).
  - exact (proj1 (failure_hides_section 0
                    (Data {| found := true; location := None; emergency_services := None |})
                    Samples.one_section
                    {| hidden := false; centers := Spinner; built := false |}
                    eq_refl eq_refl)).
Defined.

End MapExtras.

(** ** The result cards *)

Module ResultFacts.

Import MainPage.
Local Open Scope list_scope.

Lemma display_from_complete (i : nat) (rs : list (result * answer)) (sc : screen) :
  Forall (fun ra => renderable ra.1 = true) rs ->
  exists sc',
    display_from i rs sc = (sc', true) /\
    results_shown sc' = results_shown sc /\
    cards sc' = cards sc ++ imap (fun k ra => card_of (i + k) ra.1) rs /\
    geocoded_texts sc' = geocoded_texts sc ++ omap (fun ra => asked ra.1) rs.
Proof.
  revert i sc. induction rs as [|[r ans] rs IH]; intros i sc Hall.
  - exists sc. cbn. rewrite !app_nil_r. repeat split.
  - apply Forall_cons in Hall as [Hr Hall]. cbn in Hr.
    assert (Hshift : imap (fun k ra => card_of (i + k) ra.1) ((r, ans) :: rs)
                     = card_of i r :: imap (fun k (ra : result * answer) => card_of (S i + k) ra.1) rs).
    { cbn. rewrite Nat.add_0_r. f_equal. apply imap_ext. intros k ra _. cbn.
      f_equal. lia. }
    rewrite Hshift.
    change (omap (fun ra : result * answer => asked ra.1) ((r, ans) :: rs))
      with (match asked r with
            | Some t => t :: omap (fun ra : result * answer => asked ra.1) rs
            | None => omap (fun ra : result * answer => asked ra.1) rs
            end).
    cbn [display_from]. unfold renderable in Hr. unfold card_of, asked, located.
    destruct (truthy (error r)) eqn:Herr; cbn [negb andb].
    + destruct (IH (S i) (add_card (ErrorCard r) sc) Hall) as (sc' & -> & Hs & Hc & Hg).
      exists sc'. split; [reflexivity|]. split; [exact Hs|].
      split; [rewrite Hc; cbn; rewrite <- app_assoc; reflexivity|exact Hg].
    + cbn in Hr. apply bool_decide_eq_true in Hr as [e He]. rewrite He.
      destruct (truthy (e_location e)) eqn:Hloc.
      * match goal with
        | |- context [display_from (S i) rs ?sc0] =>
            destruct (IH (S i) sc0 Hall) as (sc' & -> & Hs & Hc & Hg)
        end.
        exists sc'. split; [reflexivity|]. split; [exact Hs|].
        split; [rewrite Hc; cbn; rewrite <- app_assoc; reflexivity|].
        rewrite Hg. cbn. rewrite <- app_assoc.
        destruct (e_location e); [reflexivity|discriminate].
      * match goal with
        | |- context [display_from (S i) rs ?sc0] =>
            destruct (IH (S i) sc0 Hall) as (sc' & -> & Hs & Hc & Hg)
        end.
        exists sc'. split; [reflexivity|]. split; [exact Hs|].
        split; [rewrite Hc; cbn; rewrite <- app_assoc; reflexivity|exact Hg].
Qed.

(** X9: one card per result, one geocoding request per located result.
    When every result carries an [error] or its [entities], [displayResults]
    runs to its end, shows the results section with exactly one card per
    result in the order of the results, an error card for a result with an
    [error] and a result card numbered from 1 otherwise, and sends to
    [/geocode] exactly the locations of the results that have no error and a
    location, in their order. *)
Theorem one_card_per_result (rs : list (result * answer)) (sc : screen) :
  Forall (fun ra => renderable ra.1 = true) rs ->
  exists sc',
    displayResults rs sc = (sc', true) /\
    results_shown sc' = true /\
    cards sc' = imap (fun i ra => card_of i ra.1) rs /\
    geocoded_texts sc' = geocoded_texts sc ++ omap (fun ra => asked ra.1) rs.
Proof.
  intros Hall. unfold displayResults.
  match goal with
  | |- context [display_from 0 rs ?sc0] =>
      destruct (display_from_complete 0 rs sc0 Hall) as (sc' & -> & Hs & Hc & Hg)
  end.
  exists sc'. split; [reflexivity|]. split; [exact Hs|]. split; [exact Hc|exact Hg].
Qed.

(** The theorem applied to a failed file followed by a located call. *)
Lemma one_card_per_result_witness :
  exists sc',
    displayResults [(Samples.failed_file, NoAnswer);
                    (Samples.fire_call, Data Samples.busy_place)] Samples.empty_screen
    = (sc', true) /\
    cards sc'
    = [ErrorCard Samples.failed_file;
       ResultCard 2 Samples.fire_call
         (Some "Central Hospital, Harbour Fire Station") true] /\
    geocoded_texts sc' = ["Market Square"].
Proof.
  destruct (one_card_per_result
              [(Samples.failed_file, NoAnswer); (Samples.fire_call, Data Samples.busy_place)]
              Samples.empty_screen) as (sc' & Hrun & _ & Hc & Hg).
  - repeat constructor.
  - exists sc'. split; [exact Hrun|]. split; [exact Hc|exact Hg].
Defined.

Lemma display_from_abort
    (i : nat) (shown : list (result * answer)) (r : result) (ans : answer)
    (rest : list (result * answer)) (sc : screen) :
  Forall (fun ra => renderable ra.1 = true) shown ->
  renderable r = false ->
  display_from i (shown ++ (r, ans) :: rest) sc = ((display_from i shown sc).1, false).
Proof.
  revert i sc. induction shown as [|[r' ans'] shown IH]; intros i sc Hall Hr.
  - cbn. unfold renderable in Hr. apply orb_false_iff in Hr as [Herr He].
    rewrite Herr. destruct (entities r) as [e|]; [|reflexivity].
    rewrite bool_decide_eq_true_2 in He by (eexists; reflexivity). discriminate.
  - apply Forall_cons in Hall as [Hr' Hall]. cbn in Hr'. unfold renderable in Hr'.
    cbn [app display_from].
    destruct (truthy (error r')); [apply IH; assumption|].
    cbn in Hr'. apply bool_decide_eq_true in Hr' as [e He]. rewrite He.
    destruct (truthy (e_location e)); apply IH; assumption.
Qed.

(** X10: a result without [error] and without [entities] stops the display.
    [createResultCard] throws on it, so the cards, sections and requests are
    those of the results before it and nothing of it or of the results after
    it is shown, whatever they are. *)
Theorem bare_result_stops_display
    (shown : list (result * answer)) (r : result) (ans : answer)
    (rest : list (result * answer)) (sc : screen) :
  Forall (fun ra => renderable ra.1 = true) shown ->
  truthy (error r) = false ->
  entities r = None ->
  displayResults (shown ++ (r, ans) :: rest) sc = ((displayResults shown sc).1, false) /\
  List.length (cards (displayResults (shown ++ (r, ans) :: rest) sc).1) = List.length shown.
Proof.
  intros Hall Herr He.
  assert (Hr : renderable r = false).
  { unfold renderable. rewrite Herr, He. reflexivity. }
  unfold displayResults. rewrite (display_from_abort _ _ _ _ _ _ Hall Hr).
  split; [reflexivity|]. cbn [fst].
  match goal with
  | |- context [display_from 0 shown ?sc0] =>
      destruct (display_from_complete 0 shown sc0 Hall) as (sc' & -> & _ & Hc & _)
  end.
  cbn [fst]. rewrite Hc. cbn. rewrite length_imap. reflexivity.
Qed.

(** The theorem applied to an upload whose second result has no [entities]:
    the located call after it is not shown. *)
Lemma bare_result_stops_display_witness :
  (displayResults [(Samples.failed_file, NoAnswer); (Samples.bare_result, NoAnswer);
                   (Samples.fire_call, Data Samples.busy_place)] Samples.empty_screen).2
  = false /\
  cards (displayResults [(Samples.failed_file, NoAnswer); (Samples.bare_result, NoAnswer);
                         (Samples.fire_call, Data Samples.busy_place)]
           Samples.empty_screen).1
  = [ErrorCard Samples.failed_file].
Proof.
  destruct (bare_result_stops_display [(Samples.failed_file, NoAnswer)]
              Samples.bare_result NoAnswer [(Samples.fire_call, Data Samples.busy_place)]
              Samples.empty_screen) as [Hrun _].
  - repeat constructor.
  - reflexivity.
  - reflexivity.
  - cbn [app] in Hrun. rewrite Hrun. split; reflexivity.
Defined.

Lemma section_settles (index : nat) (ans : answer) (st : state) :
  exists sec,
    sections (showMapForResult index ans (createMapSection index st)) !! index = Some sec /\
    settled sec.
Proof.
  assert (Hsec : sections (createMapSection index st) !! index
                 = Some {| hidden := false; centers := Spinner; built := false |})
    by apply lookup_insert_eq.
  destruct (MapExtras.section_outcome index ans _ _ Hsec) as [(b & -> & _)|(p & -> & Hp & _)];
    eexists; (split; [reflexivity|]); [left; reflexivity|right; exact Hp].
Qed.

Lemma section_elsewhere (index other : nat) (ans : answer) (st : state) :
  other <> index ->
  sections (showMapForResult index ans (createMapSection index st)) !! other
  = sections st !! other.
Proof.
  intros Hother. assert (Hne : index <> other) by congruence.
  assert (Hmade : sections (createMapSection index st) !! other = sections st !! other)
    by (apply lookup_insert_ne; exact Hne).
  generalize dependent (createMapSection index st). intros st1 **.
  MapExtras.map_cases; MapExtras.section_lookups; exact Hmade.
Qed.

Lemma display_from_sections
    (known : nat -> Prop) (i : nat) (rs : list (result * answer)) (sc : screen) :
  (forall j sec, sections (maps sc) !! j = Some sec -> settled sec /\ known j) ->
  forall j sec,
    sections (maps (display_from i rs sc).1) !! j = Some sec ->
    settled sec /\
    (known j \/ exists r ans, i <= j /\ rs !! (j - i) = Some (r, ans) /\ located r = true).
Proof.
  revert known i sc. induction rs as [|[r ans] rs IH]; intros known i sc Hold j sec.
  - cbn. intros H. destruct (Hold j sec H). auto.
  - assert (Hlater : forall sc0,
              (forall j sec, sections (maps sc0) !! j = Some sec ->
                 settled sec /\ (known j \/ (j = i /\ located r = true))) ->
              sections (maps (display_from (S i) rs sc0).1) !! j = Some sec ->
              settled sec /\
              (known j \/ exists r0 ans0,
                 i <= j /\ ((r, ans) :: rs) !! (j - i) = Some (r0, ans0) /\ located r0 = true)).
    { intros sc0 Hsc0 H.
      destruct (IH (fun j => known j \/ (j = i /\ located r = true)) (S i) sc0 Hsc0 j sec H)
        as [Hset [[Hk|[-> Hloc]]|(r0 & ans0 & Hle & Hr0 & Hloc)]].
      - auto.
      - split; [exact Hset|]. right. exists r, ans. rewrite Nat.sub_diag. auto.
      - split; [exact Hset|]. right. exists r0, ans0.
        replace (j - i) with (S (j - S i)) by lia. split; [lia|]. auto. }
    cbn [display_from]. unfold located in *.
    destruct (truthy (error r)) eqn:Herr; cbn [negb andb].
    + apply Hlater. intros j' sec' H'. destruct (Hold j' sec' H'). auto.
    + destruct (entities r) as [e|].
      * destruct (truthy (e_location e)) eqn:Hloc.
        -- apply Hlater. cbn [maps add_card]. intros j' sec' H'.
           destruct (decide (j' = i)) as [->|Hne].
           ++ destruct (section_settles i ans (maps sc)) as (sec0 & Hsec0 & Hset).
              rewrite Hsec0 in H'. injection H' as <-. auto.
           ++ rewrite (section_elsewhere _ _ _ _ Hne) in H'.
              destruct (Hold j' sec' H'). auto.
        -- apply Hlater. intros j' sec' H'. destruct (Hold j' sec' H'). auto.
      * cbn. intros H. destruct (Hold j sec H). auto.
Qed.

(** X11: after [displayResults], no map section is left waiting.  Every map
    section in the document belongs to a result of this call that has no
    error and a location, and it is hidden or shows a result of its
    geocoding, never the spinner; sections of earlier calls are gone.  This
    holds whether the display ran to its end or stopped. *)
Theorem sections_after_display
    (rs : list (result * answer)) (sc : screen) (j : nat) (sec : section) :
  sections (maps (displayResults rs sc).1) !! j = Some sec ->
  settled sec /\ exists r ans, rs !! j = Some (r, ans) /\ located r = true.
Proof.
  unfold displayResults. intros H.
  eapply (display_from_sections (fun _ => False)) in H.
  - destruct H as [Hset [[]|(r & ans & _ & Hr & Hloc)]].
    rewrite Nat.sub_0_r in Hr. eauto.
  - cbn. intros j' sec'. rewrite lookup_empty. discriminate.
Qed.

(** The theorem applied to the section of the located call: the place has
    services around it, so the section shows their list. *)
Lemma sections_after_display_witness :
  settled {| hidden := false; centers := Listing 2 Samples.two_services; built := true |}.
Proof.
  exact (proj1 (sections_after_display
                  [(Samples.failed_file, NoAnswer);
                   (Samples.fire_call, Data Samples.busy_place)]
                  Samples.empty_screen 1
                  {| hidden := false; centers := Listing 2 Samples.two_services;
                     built := true |}
                  eq_refl)).
Defined.

(** *** The recording timer *)

Lemma timer_text_checked :
  forallb (fun t => bool_decide (read_timer (timer_text t) = Some t)) (seq 0 (100 * 60)) = true.
Proof. vm_compute. reflexivity. Qed.

(** X12: during the first hundred minutes of a recording the timer shows
    [mm:ss], two digits each, and read as minutes and seconds the text is the
    number of seconds recorded; so different times show different texts. *)
Theorem timer_text_reads_back (t : nat) :
  t < 100 * 60 -> read_timer (timer_text t) = Some t.
Proof.
  intros Ht. pose proof timer_text_checked as H.
  rewrite forallb_forall in H. specialize (H t).
  eapply bool_decide_eq_true_1, H, in_seq. lia.
Qed.

(** The theorem applied to a recording of 9 minutes 5 seconds. *)
Lemma timer_text_reads_back_witness :
  timer_text 545 = "09:05" /\ read_timer "09:05" = Some 545.
Proof.
  assert (Htext : timer_text 545 = "09:05") by (vm_compute; reflexivity).
  split; [exact Htext|]. rewrite <- Htext. apply timer_text_reads_back. lia.
Defined.

End ResultFacts.

(** ** The response page, in general *)

Module PageExtras.

Import Response PageFacts.
Local Open Scope list_scope.

Lemma dashboard_ok_init (saved dot : option string) : dashboard_ok (init saved dot).
Proof.
  unfold dashboard_ok. cbn. split; [reflexivity|]. split; [discriminate|].
  intros _ id. rewrite lookup_empty. discriminate.
Qed.

Ltac dashboard_ok_tac :=
  match goal with
  | H : timers_ok _ |- _ => destruct H as (? & ? & ? & ?)
  end;
  match goal with
  | H : dashboard_ok _ |- _ => destruct H as (? & ? & ?)
  end;
  unfold dashboard_ok; cbn in *;
  repeat match goal with
         | H : negb (_ =? _)%nat = false |- _ => apply negb_false_iff, Nat.eqb_eq in H
         | H : negb (_ =? _)%nat = true |- _ => apply negb_true_iff, Nat.eqb_neq in H
         end;
  split; [congruence|]; split;
  [ intros Hshown;
    first
      [ discriminate Hshown
      | eexists; split; [reflexivity|]; apply lookup_insert_eq
      | match goal with
        | Hon : dashboard ?st = true -> exists _, _ |- _ =>
            destruct (Hon Hshown) as (id0 & Hp & Ht);
            exists id0; split; [exact Hp|];
            repeat first
              [ rewrite lookup_insert_ne
                  by (match goal with
                      | Hlt : (forall id t, timers st !! id = Some t -> _) |- _ =>
                          pose proof (Hlt _ _ Ht); lia
                      end)
              | rewrite lookup_delete_ne by congruence ];
            exact Ht
        end ]
  | intros Hshown ? ?;
    first
      [ discriminate Hshown
      | lookups; subst; try discriminate;
        match goal with
        | Hoff : dashboard ?st = false -> forall _, _,
          H : timers ?st !! _ = Some PollTimer |- _ => exact (Hoff Hshown _ H)
        | Hpoll : (forall id, timers ?st !! id = Some PollTimer -> _),
          H : timers ?st !! _ = Some PollTimer |- _ => apply Hpoll in H; congruence
        end ] ].

Lemma dashboard_ok_step (st : page) (e : event) :
  timers_ok st -> dashboard_ok st -> dashboard_ok (step st e).
Proof.
  intros Hok Hdash. destruct e as [r|p|v|env| | |b|id|r|m]; page_functions.
  - by_cases; dashboard_ok_tac.
  - by_cases; dashboard_ok_tac.
  - by_cases; dashboard_ok_tac.
  - by_cases; dashboard_ok_tac.
  - by_cases; dashboard_ok_tac.
  - by_cases; dashboard_ok_tac.
  - by_cases; dashboard_ok_tac.
  - by_cases; dashboard_ok_tac.
  - unfold loadAlerts_resume, renderAlerts, showAlertModal, playEmergencySound, set_dot,
      add_timer. by_cases; dashboard_ok_tac.
  - by_cases; dashboard_ok_tac.
Qed.

Lemma dashboard_ok_run (st : page) (es : list event) :
  timers_ok st -> dashboard_ok st -> dashboard_ok (run st es).
Proof.
  revert st. induction es as [|e es IH]; intros st Hok Hdash; [exact Hdash|].
  apply (IH (step st e)); [apply timers_ok_step, Hok|apply dashboard_ok_step; assumption].
Qed.

(** X13: polling runs exactly while the dashboard is displayed.  In every
    state the page can reach, the label of the header reads "Online" exactly
    when the dashboard is displayed; while it is displayed the polling timer
    that [pollInterval] names is active, and it is the only one; while it is
    not, no polling timer is active.  (The dot next to the label is written
    by the modal as well and does not follow the dashboard:
    [dot_outlives_dashboard].) *)
Theorem polling_runs_with_dashboard (saved dot : option string) (es : list event) :
  let st := run (init saved dot) es in
  online st = dashboard st /\
  (if dashboard st
   then exists id, pollInterval st = Some id /\ polling st = {[ id := PollTimer ]}
   else polling st = ∅).
Proof.
  cbn zeta.
  pose proof (timers_ok_run _ es (timers_ok_init saved dot)) as Hok.
  pose proof (dashboard_ok_run _ es (timers_ok_init saved dot) (dashboard_ok_init saved dot))
    as (Honline & Hon & Hoff).
  split; [exact Honline|].
  destruct (dashboard (run (init saved dot) es)).
  - destruct (Hon eq_refl) as (id & Hp & Ht). exists id. split; [exact Hp|].
    destruct Hok as (_ & _ & Hpoll & _).
    apply map_eq. intros j. destruct (decide (j = id)) as [->|Hne].
    + rewrite lookup_singleton_eq. apply polling_lookup. split; [exact Ht|reflexivity].
    + rewrite lookup_singleton_ne by congruence.
      destruct (polling (run (init saved dot) es) !! j) as [t|] eqn:Hj; [|reflexivity].
      apply polling_lookup in Hj as [Hj _]. apply Hpoll in Hj. congruence.
  - apply map_empty. intros j.
    destruct (polling (run (init saved dot) es) !! j) as [t|] eqn:Hj; [|reflexivity].
    apply polling_lookup in Hj as [Hj _]. destruct (Hoff eq_refl j Hj).
Qed.

(** The dot does not follow the dashboard: an alert is presented, the
    operator leaves the dashboard, which turns the dot to "offline", and
    then dismisses the modal, which turns it to "online" with the dashboard
    closed and no polling. *)
Lemma dot_outlives_dashboard :
  let a0 := Samples.alert_at Samples.T0 3 in
  let a1 := Samples.alert_at Samples.T1 1 in
  let left :=
    run Samples.fresh
      (Samples.open_dashboard
       ++ [AlertsArrived (Feed [a0]); TimerFired 2; AlertsArrived (Feed [a1; a0]);
           ChangeClicked]) in
  let st := step left DismissClicked in
  statusDot left = Some "dot offline" /\
  statusDot st = Some "dot online" /\
  online st = false /\ dashboard st = false /\ polling st = ∅.
Proof. vm_compute. repeat split. Qed.

(** *** Siren and modal *)

Lemma presentation_step (st : page) (e : event) :
  sirens (step st e) + List.length (presented st)
  = sirens st + List.length (presented (step st e)).
Proof.
  destruct e as [r|p|v|env| | |b|id|r|m]; page_functions;
    try unfold loadAlerts_resume, renderAlerts, showAlertModal, playEmergencySound,
      set_dot, add_timer;
    by_cases; unfold sirens, presented; cbn;
    rewrite ?List.filter_app, ?omap_app, ?length_app; cbn; lia.
Qed.

(** X14: the siren and the modal always come together.  However the page is
    driven, by polls, by notification clicks or by both, the siren has
    sounded as many times as an alert has been put into the modal. *)
Theorem siren_with_every_modal (saved dot : option string) (es : list event) :
  sirens (run (init saved dot) es) = List.length (presented (run (init saved dot) es)).
Proof.
  assert (H : forall st, sirens st = List.length (presented st) ->
                         sirens (run st es) = List.length (presented (run st es))).
  { induction es as [|e es IH]; intros st Hst; [exact Hst|].
    apply (IH (step st e)). pose proof (presentation_step st e). lia. }
  apply H. reflexivity.
Qed.

(** *** Resuming the session of an earlier visit *)

Lemma truthy_name (c : string) : c <> "" -> truthy (Some c) = true.
Proof. intros Hc. cbn. apply negb_true_iff, String.eqb_neq, Hc. Qed.

Lemma showDashboard_shown (st : page) (c : string) :
  selectedCenter st = Some c -> c <> "" ->
  dashboard (showDashboard st) = true /\
  selectedCenter (showDashboard st) = Some c /\
  last (log (showDashboard st)) = Some (FetchAlerts c).
Proof.
  intros Hsel Hc. unfold showDashboard, setOnline, set_dot, loadAlerts, clear_timer, add_timer.
  cbn [selectedCenter set_dashboard set_online set_statusDot]. rewrite Hsel, (truthy_name c Hc).
  by_cases; rewrite ?last_snoc; repeat split; assumption.
Qed.

Lemma assign_select_value (v : string) (st : page) :
  v <> "" ->
  String.eqb (selectValue (assign_select v st)) v = bool_decide (v ∈ centers st).
Proof.
  intros Hv. unfold assign_select. cbn. destruct (bool_decide (v ∈ centers st)).
  - apply String.eqb_refl.
  - apply String.eqb_neq. congruence.
Qed.

Lemma restore_callback (saved : string) (st : page) :
  saved <> "" ->
  callback (RestoreTimer saved) st
  = if bool_decide (saved ∈ centers st)
    then showDashboard (assign_select saved st)
    else assign_select saved st.
Proof.
  intros Hs. cbn [callback]. rewrite (assign_select_value saved st Hs). reflexivity.
Qed.

Lemma loadCenters_resume_frame (r : option (list string)) (st : page) :
  let st' := loadCenters_resume r st in
  dashboard st' = dashboard st /\ timers st' = timers st /\ stored st' = stored st /\
  log st' = log st /\
  (selectedCenter st' = selectedCenter st \/ selectedCenter st' = stored st) /\
  centers st' = default (centers st) r.
Proof.
  cbn zeta. unfold loadCenters_resume, assign_select. by_cases; repeat split; auto.
  all: destruct (stored st) as [s|] eqn:Hs; cbn in *; try discriminate; auto.
Qed.

Lemma on_load_stored (p c : string) (dot : option string) :
  c <> "" ->
  on_load p (init (Some c) dot)
  = if String.eqb p "granted"
    then set_nextTimer 2 (set_timers {[ 1 := RestoreTimer c ]}
                            (set_selectedCenter (Some c) (init (Some c) dot)))
    else init (Some c) dot.
Proof.
  intros Hc. unfold on_load. cbn [stored init]. rewrite (truthy_name c Hc). cbn [andb].
  destruct (String.eqb p "granted"); reflexivity.
Qed.

(** X15: the session of an earlier visit is resumed only for a facility
    that is still listed, and only if the list is there in time.  On a page
    that finds the facility [c] in [localStorage]: when the facility list
    arrives before the 600 ms timeout of the [load] listener fires, the
    dashboard opens exactly when the notification permission is "granted" and
    the list offers [c], and it then polls for [c]; when the timeout fires
    before the list has arrived, the dashboard stays closed, whatever the
    list says afterwards. *)
Theorem session_resumed_if_listed
    (c p : string) (names : list string) (r : option (list string)) (dot : option string) :
  c <> "" ->
  let st := run (init (Some c) dot) [PageLoaded p; CentersLoaded (Some names); TimerFired 1] in
  let late := run (init (Some c) dot) [PageLoaded p; TimerFired 1; CentersLoaded r] in
  dashboard st = String.eqb p "granted" && bool_decide (c ∈ names) /\
  (dashboard st = true ->
   selectedCenter st = Some c /\ last (log st) = Some (FetchAlerts c)) /\
  dashboard late = false.
Proof.
  intros Hc. cbn zeta. unfold run. cbn [foldl step].
  rewrite (on_load_stored p c dot Hc).
  destruct (String.eqb p "granted"); cbn [andb].
  - set (st1 := set_nextTimer 2 _).
    destruct (loadCenters_resume_frame (Some names) st1) as (Hd2 & Ht2 & Hs2 & Hl2 & Hsel2 & Hc2).
    cbn zeta in *.
    assert (Hsel : selectedCenter (loadCenters_resume (Some names) st1) = Some c)
      by (destruct Hsel2 as [->| ->]; reflexivity).
    set (st2 := loadCenters_resume (Some names) st1) in *. clearbody st2.
    cbn [default] in Hc2.
    assert (Hfire : fire 1 st2
                    = callback (RestoreTimer c) (set_timers (delete 1 (timers st2)) st2)).
    { unfold fire. rewrite Ht2. unfold st1. cbn [timers set_timers set_nextTimer].
      rewrite lookup_singleton_eq. reflexivity. }
    rewrite Hfire, (restore_callback c _ Hc).
    replace (centers (set_timers (delete 1 (timers st2)) st2)) with names
      by (symmetry; exact Hc2).
    assert (Hlate : dashboard (loadCenters_resume r (fire 1 st1)) = false).
    { destruct (loadCenters_resume_frame r (fire 1 st1)) as (-> & _).
      assert (Hf : fire 1 st1
                   = callback (RestoreTimer c) (set_timers (delete 1 (timers st1)) st1)).
      { unfold fire, st1. cbn [timers set_timers set_nextTimer].
        rewrite lookup_singleton_eq. reflexivity. }
      rewrite Hf, (restore_callback c _ Hc).
      rewrite bool_decide_eq_false_2 by (cbn; apply not_elem_of_nil). reflexivity. }
    destruct (bool_decide (c ∈ names)).
    + match goal with
      | |- context [showDashboard ?s] =>
          destruct (showDashboard_shown s c Hsel Hc) as (Hd & Hs & Hl)
      end.
      rewrite Hd. repeat split; assumption.
    + change (dashboard (assign_select c (set_timers (delete 1 (timers st2)) st2)))
        with (dashboard st2).
      rewrite Hd2.
      split; [reflexivity|]. split; [discriminate|exact Hlate].
  - set (st1 := init (Some c) dot).
    destruct (loadCenters_resume_frame (Some names) st1) as (Hd2 & Ht2 & _).
    cbn zeta in *.
    assert (Hfire : forall st0, timers st0 = ∅ -> fire 1 st0 = st0).
    { intros st0 H0. unfold fire. rewrite H0, lookup_empty. reflexivity. }
    rewrite (Hfire _ Ht2), Hd2, (Hfire st1 eq_refl).
    destruct (loadCenters_resume_frame r st1) as (-> & _).
    split; [reflexivity|]. split; [discriminate|reflexivity].
Qed.

(** The theorem applied to the hospital, stored by an earlier visit and
    still listed. *)
Lemma session_resumed_if_listed_witness :
  dashboard (run (init (Some Samples.hospital) None)
               [PageLoaded "granted";
                CentersLoaded (Some [Samples.hospital; Samples.station]);
                TimerFired 1])
  = true /\
  dashboard (run (init (Some Samples.hospital) None)
               [PageLoaded "granted"; TimerFired 1;
                CentersLoaded (Some [Samples.hospital; Samples.station])])
  = false.
Proof.
  destruct (session_resumed_if_listed Samples.hospital "granted"
              [Samples.hospital; Samples.station]
              (Some [Samples.hospital; Samples.station]) None) as (Hd & _ & Hlate).
  - discriminate.
  - split; [|exact Hlate]. rewrite Hd. vm_compute. reflexivity.
Defined.

(** *** Enabling notifications, all or nothing *)

(** On a first visit the wait for the worker sets its failsafe timer; the
    refusal that follows leaves it behind, and when it fires it is gone and
    nothing else has changed. *)
Lemma refusal_leaves_failsafe :
  let st := run Samples.fresh (Samples.select_hospital ++ [EnableClicked Samples.first_denying]) in
  timers st = {[ 1 := FailsafeTimer ]} /\
  delay FailsafeTimer = 3000%Z /\
  swRegistration st = true /\
  dashboard st = false /\
  fire 1 st = set_timers ∅ st.
Proof. vm_compute. repeat split. Qed.


End PageExtras.

(** ** The push key *)

Module KeyFacts.

Import Response.
Local Open Scope list_scope.

Ltac div_lia := zify; Z.to_euclidean_division_equations; lia.

Lemma sextet_facts (a : ascii) (n : N) :
  sextet a = Some n -> (n < 64)%N /\ is_space a = false /\ a <> "="%char.
Proof.
  destruct a as [[] [] [] [] [] [] [] []]; vm_compute; intros [= <-];
    repeat split; discriminate.
Qed.

Lemma url_char_sextet (n : N) :
  (n < 64)%N -> sextet (url_to_base64 (url_char n)) = Some n.
Proof.
  intros Hn.
  assert (H : forallb (fun k => bool_decide (sextet (url_to_base64 (url_char (N.of_nat k)))
                                             = Some (N.of_nat k))) (seq 0 64) = true)
    by (vm_compute; reflexivity).
  rewrite forallb_forall in H. specialize (H (N.to_nat n)).
  rewrite N2Nat.id in H. eapply bool_decide_eq_true_1, H, in_seq. lia.
Qed.

Lemma bytes_ind3 (P : list N -> Prop) :
  P [] -> (forall x, P [x]) -> (forall x y, P [x; y]) ->
  (forall x y z l, P l -> P (x :: y :: z :: l)) ->
  forall l, P l.
Proof.
  intros H0 H1 H2 H3.
  assert (H : forall n l, List.length l <= n -> P l).
  { induction n as [|n IH]; intros l Hl.
    - destruct l; [exact H0|cbn in Hl; lia].
    - destruct l as [|x [|y [|z l]]]; auto. apply H3, IH. cbn in Hl. lia. }
  intros l. apply (H (List.length l)). lia.
Qed.

Lemma to_sextets_small (bytes : list N) :
  Forall (fun b => (b < 256)%N) bytes -> Forall (fun n => (n < 64)%N) (to_sextets bytes).
Proof.
  induction bytes as [|x|x y|x y z l IH] using bytes_ind3; intros Hb; cbn [to_sextets].
  - constructor.
  - apply Forall_cons in Hb as [Hx _]. repeat constructor; div_lia.
  - apply Forall_cons in Hb as [Hx Hb]. apply Forall_cons in Hb as [Hy _].
    repeat constructor; div_lia.
  - apply Forall_cons in Hb as [Hx Hb]. apply Forall_cons in Hb as [Hy Hb].
    apply Forall_cons in Hb as [Hz Hb].
    repeat (constructor; [div_lia|]). apply IH, Hb.
Qed.

Lemma octets_to_sextets (bytes : list N) :
  Forall (fun b => (b < 256)%N) bytes -> octets (to_sextets bytes) = bytes.
Proof.
  induction bytes as [|x|x y|x y z l IH] using bytes_ind3; intros Hb; cbn [to_sextets].
  - reflexivity.
  - apply Forall_cons in Hb as [Hx _]. cbn [octets]. f_equal. div_lia.
  - apply Forall_cons in Hb as [Hx Hb]. apply Forall_cons in Hb as [Hy _].
    cbn [octets]. repeat f_equal; div_lia.
  - apply Forall_cons in Hb as [Hx Hb]. apply Forall_cons in Hb as [Hy Hb].
    apply Forall_cons in Hb as [Hz Hb].
    cbn [octets]. rewrite (IH Hb). repeat f_equal; div_lia.
Qed.

Lemma to_sextets_length (bytes : list N) :
  List.length (to_sextets bytes) mod 4 <> 1.
Proof.
  induction bytes as [|x|x y|x y z l IH] using bytes_ind3; cbn [to_sextets List.length];
    try (cbn; lia).
  revert IH. generalize (List.length (to_sextets l)). intros m Hm.
  change (S (S (S (S m)))) with (4 + m). rewrite <- Nat.Div0.add_mod_idemp_l. exact Hm.
Qed.

Lemma sextets_map (ns : list N) :
  Forall (fun n => (n < 64)%N) ns ->
  sextets (List.map url_to_base64 (List.map url_char ns)) = Some ns.
Proof.
  induction 1 as [|n ns Hn _ IH]; [reflexivity|].
  cbn. rewrite (url_char_sextet n Hn), IH. reflexivity.
Qed.

Lemma sextets_Some (l : list ascii) (ns : list N) :
  sextets l = Some ns ->
  List.length ns = List.length l /\
  Forall (fun n => (n < 64)%N) ns /\
  Forall (fun a => is_space a = false /\ a <> "="%char) l.
Proof.
  revert ns. induction l as [|a l IH]; intros ns; cbn.
  - intros [= <-]. repeat split; constructor.
  - destruct (sextet a) as [n|] eqn:Ha; [|discriminate].
    destruct (sextets l) as [ns'|]; [|discriminate]. intros [= <-].
    destruct (IH ns' eq_refl) as (Hlen & Hns & Hl).
    destruct (sextet_facts a n Ha) as (Hn & Hsp & Heq).
    cbn. repeat split; [congruence|constructor; assumption|constructor; auto].
Qed.

Lemma filter_spaces (l : list ascii) :
  Forall (fun a => is_space a = false /\ a <> "="%char) l ->
  forall k, List.filter (fun a => negb (is_space a)) (l ++ repeat "="%char k)
            = l ++ repeat "="%char k.
Proof.
  intros Hl k. induction Hl as [|a l [Ha _] _ IH]; cbn.
  - induction k as [|k IHk]; [reflexivity|]. cbn. f_equal. exact IHk.
  - rewrite Ha. cbn. f_equal. exact IH.
Qed.

Lemma strip_padding_app (l : list ascii) (k : nat) :
  Forall (fun a => is_space a = false /\ a <> "="%char) l ->
  k <= 2 ->
  strip_padding (l ++ repeat "="%char k) = l.
Proof.
  intros Hl Hk. unfold strip_padding. rewrite rev_app_distr.
  assert (Hhead : match rev l with
                  | a :: _ => a <> "="%char
                  | [] => True
                  end).
  { destruct (rev l) as [|a r] eqn:Hr; [exact I|].
    assert (Hin : In a l) by (apply in_rev; rewrite Hr; left; reflexivity).
    rewrite Forall_forall in Hl.
    apply list_elem_of_In in Hin. exact (proj2 (Hl a Hin)). }
  remember (rev l) as rl eqn:Hr.
  assert (Hback : l = rev rl) by (subst rl; symmetry; apply rev_involutive).
  clear Hr Hl. subst l.
  destruct k as [|[|[|k]]]; [| | |lia]; cbn [repeat rev app].
  - rewrite app_nil_r. destruct rl as [|a r]; [reflexivity|].
    destruct a as [[] [] [] [] [] [] [] []]; try reflexivity. congruence.
  - destruct rl as [|a r]; [reflexivity|].
    destruct a as [[] [] [] [] [] [] [] []]; try reflexivity. congruence.
  - reflexivity.
Qed.

Lemma pad_length (m : nat) :
  m mod 4 <> 1 -> (4 - m mod 4) mod 4 <= 2 /\ (m + (4 - m mod 4) mod 4) mod 4 = 0.
Proof.
  intros Hm. pose proof (Nat.mod_upper_bound m 4 ltac:(lia)) as Hlt.
  rewrite (Nat.Div0.add_mod m). revert Hm Hlt. generalize (m mod 4). intros r Hr Hlt.
  destruct r as [|[|[|[|r]]]]; try lia; cbn; lia.
Qed.

Lemma map_padding (k : nat) :
  List.map url_to_base64 (repeat "="%char k) = repeat "="%char k.
Proof. induction k as [|k IH]; [reflexivity|]. cbn [repeat List.map]. rewrite IH. reflexivity. Qed.

(** A text over the alphabet whose length is not one more than a multiple of
    four decodes to the bytes its characters spell. *)
Lemma decode_key (l : list ascii) (ns : list N) :
  sextets (List.map url_to_base64 l) = Some ns ->
  List.length l mod 4 <> 1 ->
  urlBase64ToUint8Array (string_of_list_ascii l) = Some (octets ns).
Proof.
  intros Hns Hlen. unfold urlBase64ToUint8Array, atob.
  rewrite list_ascii_of_string_of_list_ascii, List.map_app, map_padding.
  destruct (sextets_Some _ _ Hns) as (Hl & _ & Hok).
  rewrite (filter_spaces _ Hok).
  destruct (pad_length _ Hlen) as [Hk Hzero].
  rewrite length_app, repeat_length, length_map, Hzero. cbn [Nat.eqb].
  rewrite (strip_padding_app _ _ Hok Hk), length_map.
  destruct (List.length l mod 4 =? 1)%nat eqn:H1; [apply Nat.eqb_eq in H1; congruence|].
  rewrite Hns. reflexivity.
Qed.

(** X17: the push key decodes to the bytes it encodes.  For every list of
    bytes, [urlBase64ToUint8Array] applied to their unpadded URL-safe base64
    text gives back exactly these bytes: the padding it adds is the one
    [atob] takes off again, and "-" and "_" are read as the "+" and "/" they
    stand for. *)
Theorem key_round_trip (bytes : list N) :
  Forall (fun b => (b < 256)%N) bytes ->
  urlBase64ToUint8Array (base64url bytes) = Some bytes.
Proof.
  intros Hb. unfold base64url.
  rewrite (decode_key _ (to_sextets bytes)).
  - rewrite (octets_to_sextets _ Hb). reflexivity.
  - apply sextets_map, to_sextets_small, Hb.
  - rewrite length_map. apply to_sextets_length.
Qed.

(** The theorem applied to the five bytes of "Hello". *)
Lemma key_round_trip_witness :
  base64url [72; 101; 108; 108; 111]%N = "SGVsbG8" /\
  urlBase64ToUint8Array "SGVsbG8" = Some [72; 101; 108; 108; 111]%N.
Proof.
  assert (Htext : base64url [72; 101; 108; 108; 111]%N = "SGVsbG8") by reflexivity.
  split; [exact Htext|]. rewrite <- Htext. apply key_round_trip.
  repeat constructor.
Defined.

Lemma octets_length (ns : list N) :
  List.length ns mod 4 <> 1 ->
  Forall (fun n => (n < 64)%N) ns ->
  List.length (octets ns) = 3 * List.length ns / 4 /\
  Forall (fun b => (b < 256)%N) (octets ns).
Proof.
  assert (H : forall m (ns : list N), List.length ns <= m ->
            List.length ns mod 4 <> 1 ->
            Forall (fun n => (n < 64)%N) ns ->
            List.length (octets ns) = 3 * List.length ns / 4 /\
            Forall (fun b => (b < 256)%N) (octets ns)).
  { induction m as [|m IH]; intros l Hm Hlen Hsmall.
    - destruct l; [split; [reflexivity|constructor]|cbn in Hm; lia].
    - destruct l as [|a [|b [|c [|d l]]]].
      + split; [reflexivity|constructor].
      + cbn in Hlen. congruence.
      + apply Forall_cons in Hsmall as [Ha Hsmall]. apply Forall_cons in Hsmall as [Hb _].
        split; [reflexivity|]. repeat constructor. div_lia.
      + apply Forall_cons in Hsmall as [Ha Hsmall]. apply Forall_cons in Hsmall as [Hb Hsmall].
        apply Forall_cons in Hsmall as [Hc _].
        split; [reflexivity|]. repeat constructor; div_lia.
      + apply Forall_cons in Hsmall as [Ha Hsmall]. apply Forall_cons in Hsmall as [Hb Hsmall].
        apply Forall_cons in Hsmall as [Hc Hsmall]. apply Forall_cons in Hsmall as [Hd Hsmall].
        cbn [List.length] in Hm, Hlen.
        change (S (S (S (S (List.length l))))) with (4 + List.length l) in Hlen.
        rewrite <- Nat.Div0.add_mod_idemp_l in Hlen. cbn [Nat.modulo] in Hlen.
        destruct (IH l ltac:(lia) Hlen Hsmall) as [Hl Hbytes].
        cbn [octets List.length]. rewrite Hl. split.
        * replace (3 * S (S (S (S (List.length l))))) with (3 * List.length l + 3 * 4) by lia.
          rewrite Nat.div_add by lia. lia.
        * repeat (constructor; [div_lia|]). exact Hbytes. }
  intros Hlen Hsmall. apply (H (List.length ns)); auto.
Qed.

Lemma sextets_total (l : list ascii) :
  Forall (fun a => is_Some (sextet a)) l -> is_Some (sextets l).
Proof.
  induction 1 as [|a l [n Ha] _ [ns IH]]; cbn; [eexists; reflexivity|].
  rewrite Ha, IH. eexists. reflexivity.
Qed.

Lemma sextets_padding (l : list ascii) : sextets (l ++ ["="%char]) = None.
Proof.
  induction l as [|a l IH]; [reflexivity|]. cbn. rewrite IH.
  destruct (sextet a); reflexivity.
Qed.

Lemma key_decodes_chars (l : list ascii) :
  Forall (fun a => is_Some (sextet (url_to_base64 a))) l ->
  if (List.length l mod 4 =? 1)%nat
  then urlBase64ToUint8Array (string_of_list_ascii l) = None
  else exists bytes,
         urlBase64ToUint8Array (string_of_list_ascii l) = Some bytes /\
         List.length bytes = 3 * List.length l / 4 /\
         Forall (fun b => (b < 256)%N) bytes.
Proof.
  intros Hl.
  assert (Hmap : Forall (fun a => is_Some (sextet a)) (List.map url_to_base64 l)).
  { apply Forall_map. exact Hl. }
  destruct (sextets_total _ Hmap) as [ns Hns].
  destruct (sextets_Some _ _ Hns) as (Hlen & Hsmall & Hok).
  rewrite length_map in Hlen.
  destruct (List.length l mod 4 =? 1)%nat eqn:H1.
  - apply Nat.eqb_eq in H1. unfold urlBase64ToUint8Array, atob.
    rewrite list_ascii_of_string_of_list_ascii, List.map_app, map_padding, H1.
    change ((4 - 1) mod 4) with 3.
    rewrite (filter_spaces _ Hok), length_app, repeat_length, length_map.
    assert (Hzero : (List.length l + 3) mod 4 = 0).
    { rewrite Nat.Div0.add_mod, H1. reflexivity. }
    rewrite Hzero. cbn [Nat.eqb].
    assert (Hstrip : strip_padding (List.map url_to_base64 l ++ repeat "="%char 3)
                     = List.map url_to_base64 l ++ ["="%char]).
    { unfold strip_padding. rewrite rev_app_distr. cbn [repeat rev app].
      cbn. rewrite rev_involutive. reflexivity. }
    rewrite Hstrip, length_app, length_map. cbn [List.length].
    assert (Htwo : (List.length l + 1) mod 4 = 2).
    { rewrite Nat.Div0.add_mod, H1. reflexivity. }
    rewrite Htwo. cbn [Nat.eqb]. rewrite sextets_padding. reflexivity.
  - apply Nat.eqb_neq in H1. rewrite (decode_key l ns Hns H1).
    rewrite <- Hlen in H1 |- *.
    destruct (octets_length ns H1 Hsmall) as [Ho Hb].
    exists (octets ns). repeat split; assumption.
Qed.

(** X18: which keys decode, and to how many bytes.  For a text made of
    letters, digits, "-", "_", "+" and "/" only, [urlBase64ToUint8Array]
    throws exactly when the length of the text is one more than a multiple of
    four; otherwise it returns a byte array, of three bytes for every four
    characters (rounded down), each below 256. *)
Theorem key_decodes (base64String : string) :
  let chars := list_ascii_of_string base64String in
  Forall (fun a => is_Some (sextet (url_to_base64 a))) chars ->
  if (List.length chars mod 4 =? 1)%nat
  then urlBase64ToUint8Array base64String = None
  else exists bytes,
         urlBase64ToUint8Array base64String = Some bytes /\
         List.length bytes = 3 * List.length chars / 4 /\
         Forall (fun b => (b < 256)%N) bytes.
Proof.
  cbn zeta. intros Hl.
  pose proof (key_decodes_chars (list_ascii_of_string base64String) Hl) as H.
  rewrite string_of_list_ascii_of_string in H. exact H.
Qed.

(** The theorem applied to a push key of 87 characters: it decodes to 65
    bytes. *)
Lemma key_decodes_witness :
  exists bytes,
    urlBase64ToUint8Array Samples.push_key = Some bytes /\
    List.length bytes = 65.
Proof.
  pose proof (key_decodes Samples.push_key) as H. cbn zeta in H.
  assert (Hok : Forall (fun a => is_Some (sextet (url_to_base64 a)))
                  (list_ascii_of_string Samples.push_key)).
  { apply Forall_forall. intros a Ha. apply list_elem_of_In in Ha.
    assert (Hall : forallb (fun a => bool_decide (is_Some (sextet (url_to_base64 a))))
                     (list_ascii_of_string Samples.push_key) = true)
      by (vm_compute; reflexivity).
    rewrite forallb_forall in Hall. eapply bool_decide_eq_true_1, Hall, Ha. }
  specialize (H Hok).
  change (List.length (list_ascii_of_string Samples.push_key) mod 4 =? 1)%nat
    with false in H.
  destruct H as (bytes & Hrun & Hlen & _). exists bytes. split; [exact Hrun|].
  rewrite Hlen. reflexivity.
Defined.

End KeyFacts.
